(** * k6-sandbox: the mock API server and the login helper

    A shallow embedding of [mock-server] (the Express application) and of
    the [login] helper of [utils], with the properties of their handlers.

    Conventions of the model:
    - a JavaScript string is a [string] (its UTF-8 bytes);
    - a value that came out of [JSON.parse] is a [json]; [undefined] is
      [None] in an [option json];
    - [parseInt] yields [option Z], [None] being [NaN]; the mathematical
      integer is kept (IEEE rounding only starts beyond 2^53);
    - what a handler observes of the outside world ([Math.random()],
      [new Date()]) is passed to it in an [env];
    - a handler returns what it hands to [res.status(..).json(..)], or
      [Throw] when the call raises. *)

From Stdlib Require Import ZArith QArith Qround String Ascii List Lia.
From stdpp Require Import base decidable countable strings list.
Import ListNotations.

Local Open Scope string_scope.
Local Open Scope Z_scope.

(** * Part I: the embedding *)

(** ** JavaScript values *)

#[local] Set Warnings "-register-all".

Inductive json : Type :=
| JNull
| JBool (b : bool)
| JNum (q : Q)
| JStr (s : string)
| JArr (items : list json)
| JObj (fields : list (string * json)).

(** First binding of a key in the own properties of an object. *)
Fixpoint lookup_field (k : string) (fields : list (string * json)) : option json :=
  match fields with
  | [] => None
  | (k', v) :: rest => if String.eqb k k' then Some v else lookup_field k rest
  end.

(** [v.k] for a value [v] that is not [null] and a key [k] that no
    prototype defines and that is neither [length] nor an index: the keys
    this program reads are [name], [email], [username], [password],
    [userId], [data] and [token]. Only objects can have such a property. *)
Definition prop (v : json) (k : string) : option json :=
  match v with
  | JObj fields => lookup_field k fields
  | _ => None
  end.

(** ToBoolean: [undefined], [null], [false], [0] and the empty string are
    falsy, every object and array is truthy. *)
Definition truthy (v : option json) : bool :=
  match v with
  | None => false
  | Some JNull => false
  | Some (JBool b) => b
  | Some (JNum q) => negb (Qnum q =? 0)
  | Some (JStr s) => negb (String.eqb s EmptyString)
  | Some (JArr _) => true
  | Some (JObj _) => true
  end.

(** [a || b] on numbers that may be [NaN]. *)
Definition num_or (n : option Z) (d : Z) : Z :=
  match n with
  | Some z => if z =? 0 then d else z
  | None => d
  end.

Definition jint (z : Z) : json := JNum (inject_Z z).

(** A number inside a document sent with [res.json]: [NaN] is written
    as [null]. *)
Definition jnumber (n : option Z) : json :=
  match n with
  | Some z => jint z
  | None => JNull
  end.

(** ** Strings and numbers *)

Definition dec_digit (c : ascii) : option Z :=
  let n := Z.of_N (N_of_ascii c) in
  if (48 <=? n) && (n <=? 57) then Some (n - 48) else None.

Definition hex_digit (c : ascii) : option Z :=
  let n := Z.of_N (N_of_ascii c) in
  if (48 <=? n) && (n <=? 57) then Some (n - 48)
  else if (97 <=? n) && (n <=? 102) then Some (n - 87)
  else if (65 <=? n) && (n <=? 70) then Some (n - 55)
  else None.

Definition digit_of (radix : Z) (c : ascii) : option Z :=
  if radix =? 16 then hex_digit c else dec_digit c.

(** The value of the longest prefix of digits, continuing from [acc]. *)
Fixpoint parse_digits (radix acc : Z) (s : string) : Z :=
  match s with
  | String c rest =>
      match digit_of radix c with
      | Some d => parse_digits radix (acc * radix + d) rest
      | None => acc
      end
  | EmptyString => acc
  end.

Definition parse_radix (radix : Z) (s : string) : option Z :=
  match s with
  | String c _ =>
      match digit_of radix c with
      | Some _ => Some (parse_digits radix 0 s)
      | None => None
      end
  | EmptyString => None
  end.

(** White space and line terminators of ECMAScript, as UTF-8. *)
Definition white_space : list string :=
  [ String "009" EmptyString; String "010" EmptyString; String "011" EmptyString; String "012" EmptyString;
    String "013" EmptyString; " ";
    String "194" (String "160" EmptyString);
    String "225" (String "154" (String "128" EmptyString));
    String "226" (String "128" (String "128" EmptyString));
    String "226" (String "128" (String "129" EmptyString));
    String "226" (String "128" (String "130" EmptyString));
    String "226" (String "128" (String "131" EmptyString));
    String "226" (String "128" (String "132" EmptyString));
    String "226" (String "128" (String "133" EmptyString));
    String "226" (String "128" (String "134" EmptyString));
    String "226" (String "128" (String "135" EmptyString));
    String "226" (String "128" (String "136" EmptyString));
    String "226" (String "128" (String "137" EmptyString));
    String "226" (String "128" (String "138" EmptyString));
    String "226" (String "128" (String "168" EmptyString));
    String "226" (String "128" (String "169" EmptyString));
    String "226" (String "128" (String "175" EmptyString));
    String "226" (String "129" (String "159" EmptyString));
    String "227" (String "128" (String "128" EmptyString));
    String "239" (String "187" (String "191" EmptyString)) ].

Fixpoint string_drop (n : nat) (s : string) : string :=
  match n, s with
  | O, _ => s
  | S n', String _ rest => string_drop n' rest
  | S _, EmptyString => EmptyString
  end.

(** Number of bytes of the white space character [s] starts with. *)
Definition white_space_at (s : string) : nat :=
  match List.find (fun w => String.prefix w s) white_space with
  | Some w => String.length w
  | None => O
  end.

Fixpoint trim_start_fuel (fuel : nat) (s : string) : string :=
  match fuel with
  | O => s
  | S fuel' =>
      match white_space_at s with
      | O => s
      | n => trim_start_fuel fuel' (string_drop n s)
      end
  end.

Definition trim_start (s : string) : string :=
  trim_start_fuel (String.length s) s.

(** The digits after the sign: an optional [0x]/[0X] prefix selects
    radix 16, then comes the longest run of digits; none is [NaN]. *)
Definition parse_magnitude (s : string) : option Z :=
  let '(radix, s') :=
    if String.prefix "0x" s || String.prefix "0X" s
    then (16, string_drop 2 s) else (10, s) in
  parse_radix radix s'.

(** [parseInt(s)] with no radix: leading white space, an optional sign,
    then the magnitude. *)
Definition parseInt (s : string) : option Z :=
  match trim_start s with
  | String "-" rest => option_map Z.opp (parse_magnitude rest)
  | String "+" rest => parse_magnitude rest
  | s' => parse_magnitude s'
  end.

(** [parseInt(undefined)] reads the text [undefined]. *)
Definition parseInt_opt (s : option string) : option Z :=
  match s with
  | Some t => parseInt t
  | None => parseInt "undefined"
  end.

Definition digit_char (d : Z) : ascii := ascii_of_N (Z.to_N (48 + d)).

Fixpoint digits_fuel (fuel : nat) (n : Z) (acc : string) : string :=
  match fuel with
  | O => acc
  | S fuel' =>
      let acc' := String (digit_char (n mod 10)) acc in
      if n / 10 =? 0 then acc' else digits_fuel fuel' (n / 10) acc'
  end.

(** Decimal digits of a natural number. *)
Definition digits (n : Z) : string := digits_fuel (S (Z.to_nat n)) n EmptyString.

(** [String(n)] for an integer [n]. *)
Definition show_Z (n : Z) : string :=
  if n <? 0 then String "-" (digits (- n)) else digits n.

(** [`${n}`] for the result of [parseInt]. *)
Definition show_num (n : option Z) : string :=
  match n with
  | Some z => show_Z z
  | None => "NaN"
  end.

(** [s] begins with a decimal digit. *)
Definition starts_digit (s : string) : Prop :=
  exists d rest, 0 <= d < 10 /\ s = String (digit_char d) rest.

(** ** The mock server (mock-server/server.js) *)

(** What one request observes of the outside world: the draw of
    [Math.random()] (no handler draws twice), the wall clock in seconds
    that [jsonwebtoken] reads, and [new Date().toISOString()] at the time
    of the response (one reading per request). *)
Record env : Type := Env {
  random : Q;
  clock : Z;
  timestamp : string
}.

(** The two calls made into the [jsonwebtoken] package.
    [jwt_sign payload secret ttl now] is
    [jwt.sign(payload, secret, { expiresIn: ttl })] evaluated at time [now];
    [jwt_verify token secret now] is [jwt.verify(token, secret)] at time
    [now], [None] when it throws. *)
Class jsonwebtoken : Type := JsonWebToken {
  jwt_sign : list (string * json) -> string -> Z -> Z -> string;
  jwt_verify : string -> string -> Z -> option json
}.

(** [req.body] as [express.json()] leaves it: an object (the empty one
    when the request carried no JSON) or an array. *)
Inductive reqbody : Type :=
| BodyObject (fields : list (string * json))
| BodyArray (items : list json).

Definition body_field (b : reqbody) (k : string) : option json :=
  match b with
  | BodyObject fields => lookup_field k fields
  | BodyArray _ => None
  end.

(** The request once routed, with its route parameters. [Unmatched] is
    any request that no route accepts; [BodyRejected] one for which
    [express.json()] raised. *)
Inductive request : Type :=
| GetHealth
| GetUsers
| GetUser (id : string)
| PostUsers (body : reqbody)
| PutUser (id : string) (body : reqbody)
| DeleteUser (id : string)
| PostLogin (body : reqbody)
| GetMe (authorization : option string)
| GetDelay (ms : string)
| GetRandomDelay
| GetStatus (code : string)
| GetRandomError
| GetLargePayload (size : option string)
| PostUpload
| Unmatched
| BodyRejected.

(** A response, as the handler produces it: the delay of the timer
    awaited before it is sent (if any), the status code, and the document
    handed to [res.json]. *)
Record response : Type := Response {
  timer : option Z;
  status : Z;
  body : json
}.

Inductive outcome : Type :=
| Send (r : response)
| Throw.

Definition reply (code : Z) (doc : json) : outcome :=
  Send {| timer := None; status := code; body := doc |}.

(** [res.status(code).json(doc)] for a computed [code]: a status outside
    100..999 makes the call raise a [RangeError]. *)
Definition reply_checked (code : Z) (doc : json) : outcome :=
  if (100 <=? code) && (code <=? 999) then reply code doc else Throw.

(** Members of an object literal; those that are [undefined] do not
    survive serialisation. *)
Definition members (l : list (string * option json)) : list (string * json) :=
  omap (fun '(k, v) => match v with Some x => Some (k, x) | None => None end) l.

(** [Math.floor(Math.random() * n)] *)
Definition random_below (e : env) (n : Z) : Z :=
  Qfloor (random e * inject_Z n).

(** [a || b] where [b] is a string. *)
Definition or_string (a : option json) (b : string) : json :=
  match a with
  | Some v => if truthy a then v else JStr b
  | None => JStr b
  end.

(** [s.repeat(n)] *)
Fixpoint string_repeat (s : string) (n : nat) : string :=
  match n with
  | O => EmptyString
  | S n' => s +:+ string_repeat s n'
  end.

(** [Array.from({ length: len }, (_, i) => f i)]: the length is clamped
    at 0 from below, and an array longer than 2^32 - 1 is refused with a
    [RangeError] ([None]). *)
Definition Array_from_length (len : Z) (f : Z -> json) : option (list json) :=
  if 4294967295 <? len then None
  else Some (List.map (fun i => f (Z.of_nat i)) (seq 0 (Z.to_nat len))).

(** Module-level bindings of the server. *)
Record store : Type := Store {
  JWT_SECRET : string
}.

Definition initial_store : store := {| JWT_SECRET := "k6-test-secret-key" |}.

Definition users : list json :=
  [ JObj [("id", jint 1); ("name", JStr "田中太郎"); ("email", JStr "tanaka@example.com")];
    JObj [("id", jint 2); ("name", JStr "佐藤花子"); ("email", JStr "sato@example.com")];
    JObj [("id", jint 3); ("name", JStr "鈴木一郎"); ("email", JStr "suzuki@example.com")] ].

Definition messages : list (Z * string) :=
  [ (200, "OK"); (400, "Bad Request"); (401, "Unauthorized");
    (403, "Forbidden"); (404, "Not Found"); (500, "Internal Server Error");
    (502, "Bad Gateway"); (503, "Service Unavailable") ].

Definition message_for (code : Z) : string :=
  match List.find (fun '(c, _) => c =? code) messages with
  | Some (_, m) => m
  | None => "Unknown Status"
  end.

Definition failure (code : Z) (msg : string) : outcome :=
  reply code (JObj [("success", JBool false); ("error", JStr msg)]).

(** The [data.token] member of a response. *)
Definition issued_token (r : response) : option json :=
  match prop (body r) "data" with
  | Some data => prop data "token"
  | None => None
  end.

(** The [n] equally spaced draws [0/n, 1/n, .., (n-1)/n] of [0, 1). *)
Definition grid (n : positive) : list Q :=
  List.map (fun k => Z.of_nat k # n) (seq 0 (Pos.to_nat n)).

Section Handlers.

Context {jwt : jsonwebtoken}.

Definition health (e : env) : outcome :=
  reply 200 (JObj [("status", JStr "ok"); ("timestamp", JStr (timestamp e))]).

Definition get_users : outcome :=
  reply 200 (JObj [("success", JBool true); ("data", JArr users)]).

Definition get_user (id : string) (e : env) : outcome :=
  let userId := parseInt id in
  let user := JObj [
    ("id", jnumber userId);
    ("name", JStr ("ユーザー" +:+ show_num userId));
    ("email", JStr ("user" +:+ show_num userId +:+ "@example.com"));
    ("createdAt", JStr (timestamp e)) ] in
  reply 200 (JObj [("success", JBool true); ("data", user)]).

Definition post_users (b : reqbody) (e : env) : outcome :=
  let name := body_field b "name" in
  let email := body_field b "email" in
  if negb (truthy name) || negb (truthy email) then
    failure 400 "name と email は必須です"
  else
    let newUser := JObj (members [
      ("id", Some (jint (random_below e 10000)));
      ("name", name);
      ("email", email);
      ("createdAt", Some (JStr (timestamp e))) ]) in
    reply 201 (JObj [("success", JBool true); ("data", newUser)]).

Definition put_user (id : string) (b : reqbody) (e : env) : outcome :=
  let userId := parseInt id in
  let name := body_field b "name" in
  let email := body_field b "email" in
  let updatedUser := JObj [
    ("id", jnumber userId);
    ("name", or_string name ("ユーザー" +:+ show_num userId));
    ("email", or_string email ("user" +:+ show_num userId +:+ "@example.com"));
    ("updatedAt", JStr (timestamp e)) ] in
  reply 200 (JObj [("success", JBool true); ("data", updatedUser)]).

Definition delete_user (id : string) : outcome :=
  let userId := parseInt id in
  reply 200 (JObj [
    ("success", JBool true);
    ("message", JStr ("ユーザーID " +:+ show_num userId +:+ " を削除しました")) ]).

(** [password === 'wrong'] *)
Definition is_wrong (password : option json) : bool :=
  match password with
  | Some (JStr s) => String.eqb s "wrong"
  | _ => false
  end.

Definition login_handler (st : store) (b : reqbody) (e : env) : outcome :=
  let username := body_field b "username" in
  let password := body_field b "password" in
  if negb (truthy username) || negb (truthy password) then
    failure 400 "username と password は必須です"
  else if is_wrong password then
    failure 401 "認証に失敗しました"
  else
    let token :=
      jwt_sign
        (members [("userId", Some (jint (random_below e 1000))); ("username", username)])
        (JWT_SECRET st) 3600 (clock e) in
    reply 200 (JObj [
      ("success", JBool true);
      ("data", JObj [("token", JStr token); ("expiresIn", jint 3600)]) ]).

Definition me_handler (st : store) (authorization : option string) (e : env) : outcome :=
  match authorization with
  | None => failure 401 "認証トークンが必要です"
  | Some authHeader =>
      if String.eqb authHeader EmptyString || negb (String.prefix "Bearer " authHeader) then
        failure 401 "認証トークンが必要です"
      else
        let token := string_drop 7 authHeader in
        match jwt_verify token (JWT_SECRET st) (clock e) with
        | Some decoded =>
            reply 200 (JObj [
              ("success", JBool true);
              ("data", JObj (members [
                 ("userId", prop decoded "userId");
                 ("username", prop decoded "username") ])) ])
        | None => failure 401 "トークンが無効です"
        end
  end.

Definition delay_handler (ms : string) (e : env) : outcome :=
  let delayMs := num_or (parseInt ms) 0 in
  let maxDelay := 10000 in
  let actualDelay := Z.min delayMs maxDelay in
  Send {| timer := Some actualDelay;
          status := 200;
          body := JObj [
            ("success", JBool true);
            ("data", JObj [
               ("requestedDelay", jint delayMs);
               ("actualDelay", jint actualDelay);
               ("timestamp", JStr (timestamp e)) ]) ] |}.

Definition random_delay (e : env) : outcome :=
  let delay := random_below e 1900 + 100 in
  Send {| timer := Some delay;
          status := 200;
          body := JObj [
            ("success", JBool true);
            ("data", JObj [("delay", jint delay); ("timestamp", JStr (timestamp e))]) ] |}.

Definition status_handler (code : string) : outcome :=
  let statusCode := num_or (parseInt code) 200 in
  reply_checked statusCode (JObj [
    ("success", JBool (statusCode <? 400));
    ("statusCode", jint statusCode);
    ("message", JStr (message_for statusCode)) ]).

(** [Math.random() < 0.2] *)
Definition random_error (e : env) : outcome :=
  if negb (Qle_bool (2 # 10) (random e)) then
    failure 500 "ランダムに発生したサーバーエラー"
  else
    reply 200 (JObj [
      ("success", JBool true);
      ("data", JObj [("message", JStr "正常にレスポンスを返しました")]) ]).

Definition large_payload (size_param : option string) (e : env) : outcome :=
  let size := num_or (parseInt_opt size_param) 100 in
  match
    Array_from_length size (fun i => JObj [
      ("id", jint (i + 1));
      ("name", JStr ("アイテム" +:+ show_Z (i + 1)));
      ("description",
        JStr (string_repeat "これは大きなペイロードをテストするためのダミーデータです。" 5));
      ("timestamp", JStr (timestamp e)) ])
  with
  | Some items =>
      reply 200 (JObj [
        ("success", JBool true);
        ("count", jint (Z.of_nat (List.length items)));
        ("data", JArr items) ])
  | None => Throw
  end.

Definition upload (e : env) : outcome :=
  reply 200 (JObj [
    ("success", JBool true);
    ("data", JObj [
       ("filename", JStr "uploaded-file.txt");
       ("size", jint (random_below e 1000000));
       ("uploadedAt", JStr (timestamp e)) ]) ]).

Definition not_found : outcome :=
  failure 404 "エンドポイントが見つかりません".

Definition error_response : response :=
  {| timer := None;
     status := 500;
     body := JObj [("success", JBool false); ("error", JStr "サーバーエラーが発生しました")] |}.

(** The route table. *)
Definition handle (st : store) (rq : request) (e : env) : outcome :=
  match rq with
  | GetHealth => health e
  | GetUsers => get_users
  | GetUser id => get_user id e
  | PostUsers b => post_users b e
  | PutUser id b => put_user id b e
  | DeleteUser id => delete_user id
  | PostLogin b => login_handler st b e
  | GetMe authorization => me_handler st authorization e
  | GetDelay ms => delay_handler ms e
  | GetRandomDelay => random_delay e
  | GetStatus code => status_handler code
  | GetRandomError => random_error e
  | GetLargePayload size => large_payload size e
  | PostUpload => upload e
  | Unmatched => not_found
  | BodyRejected => Throw
  end.

(** One request through the application: what a handler or a middleware
    throws reaches the error handler. *)
Definition serve (st : store) (rq : request) (e : env) : response :=
  match handle st rq e with
  | Send r => r
  | Throw => error_response
  end.

(** A handler is a closure over the module-level bindings: running it
    takes the store it finds to an outcome and the store it leaves. *)
Definition effect : Type := store -> outcome * store.

(** A handler body that names no module-level binding. *)
Definition closed (o : outcome) : effect := fun st => (o, st).

(** A handler body that reads module-level bindings and assigns none. *)
Definition reading (body : store -> outcome) : effect := fun st => (body st, st).

(** The routes as registered with [app.get], [app.post], ..., each with
    the bindings its body names: only the two authentication routes name
    one ([JWT_SECRET]), and they read it. *)
Definition route (rq : request) (e : env) : effect :=
  match rq with
  | GetHealth => closed (health e)
  | GetUsers => closed get_users
  | GetUser id => closed (get_user id e)
  | PostUsers b => closed (post_users b e)
  | PutUser id b => closed (put_user id b e)
  | DeleteUser id => closed (delete_user id)
  | PostLogin b => reading (fun st => login_handler st b e)
  | GetMe authorization => reading (fun st => me_handler st authorization e)
  | GetDelay ms => closed (delay_handler ms e)
  | GetRandomDelay => closed (random_delay e)
  | GetStatus code => closed (status_handler code)
  | GetRandomError => closed (random_error e)
  | GetLargePayload size => closed (large_payload size e)
  | PostUpload => closed (upload e)
  | Unmatched => closed not_found
  | BodyRejected => closed Throw
  end.

(** One request on a running server: the response sent (the error
    handler's when the route threw) and the store left behind. *)
Definition step (st : store) (rq : request) (e : env) : response * store :=
  let '(o, st') := route rq e st in
  (match o with
   | Send r => r
   | Throw => error_response
   end, st').

(** A sequence of requests served one after the other. *)
Fixpoint run (st : store) (history : list (request * env)) : list response * store :=
  match history with
  | [] => ([], st)
  | (rq, e) :: rest =>
      let '(r, st') := step st rq e in
      let '(rs, st'') := run st' rest in
      (r :: rs, st'')
  end.

(** How many of the draws [rs] are answered 500 by /api/random-error. *)
Definition failures (st : store) (rs : list Q) : nat :=
  List.length
    (List.filter (fun r => status (serve st GetRandomError (Env r 0 EmptyString)) =? 500) rs).

End Handlers.

(** ** What the server relies on in [jsonwebtoken] *)

(** A token is never the empty string (it is three dot-separated parts). *)
Definition sign_nonempty (jwt : jsonwebtoken) : Prop :=
  forall payload secret ttl now, jwt_sign payload secret ttl now <> EmptyString.

(** Before its expiry a token verifies under the secret that signed it,
    and decodes to the payload extended with [iat] and [exp]. *)
Definition verify_fresh (jwt : jsonwebtoken) : Prop :=
  forall payload secret ttl issued now,
    lookup_field "iat" payload = None ->
    lookup_field "exp" payload = None ->
    now < issued + ttl ->
    jwt_verify (jwt_sign payload secret ttl issued) secret now =
    Some (JObj (payload ++ [("iat", jint issued); ("exp", jint (issued + ttl))])).

(** From its expiry on, verification throws [TokenExpiredError]. *)
Definition verify_expired (jwt : jsonwebtoken) : Prop :=
  forall payload secret ttl issued now,
    issued + ttl <= now ->
    jwt_verify (jwt_sign payload secret ttl issued) secret now = None.

(** *** A reference implementation of the interface

    Tokens are the binary numeral of the code of the signed claims; the
    code is stdpp's [encode] through a tree view of [json]. *)

Definition leaf : Type := (unit + bool) + ((Z * positive) + string).

Fixpoint to_tree (j : json) : gen_tree leaf :=
  match j with
  | JNull => GenLeaf (inl (inl tt))
  | JBool b => GenLeaf (inl (inr b))
  | JNum q => GenLeaf (inr (inl (Qnum q, Qden q)))
  | JStr s => GenLeaf (inr (inr s))
  | JArr items => GenNode 0 (List.map to_tree items)
  | JObj fields =>
      GenNode 1
        (List.map (fun kv => GenNode 2 [GenLeaf (inr (inr (fst kv))); to_tree (snd kv)])
           fields)
  end.

Fixpoint of_tree (t : gen_tree leaf) : option json :=
  match t with
  | GenLeaf (inl (inl _)) => Some JNull
  | GenLeaf (inl (inr b)) => Some (JBool b)
  | GenLeaf (inr (inl (n, d))) => Some (JNum (n # d))
  | GenLeaf (inr (inr s)) => Some (JStr s)
  | GenNode 0 ts => option_map JArr (mapM of_tree ts)
  | GenNode 1 ts =>
      option_map JObj
        (mapM (fun t' =>
                 match t' with
                 | GenNode 2 [GenLeaf (inr (inr k)); tv] =>
                     option_map (pair k) (of_tree tv)
                 | _ => None
                 end) ts)
  | GenNode _ _ => None
  end.

Fixpoint of_to_tree (j : json) : of_tree (to_tree j) = Some j.
Proof.
  destruct j as [| b | [n d] | s | items | fields]; try reflexivity.
  - cbn [to_tree of_tree].
    replace (mapM of_tree (List.map to_tree items)) with (Some items); [reflexivity |].
    induction items as [| x items IH]; [reflexivity |].
    cbn. rewrite (of_to_tree x). cbn in IH |- *. rewrite <- IH. reflexivity.
  - cbn [to_tree of_tree].
    match goal with |- option_map JObj ?m = _ => replace m with (Some fields) end;
      [reflexivity |].
    induction fields as [| [k v] fields IH]; [reflexivity |].
    cbn. rewrite (of_to_tree v). cbn in IH |- *. rewrite <- IH. reflexivity.
Qed.

#[local] Instance json_eq_dec : EqDecision json.
Proof.
  intros x y. destruct (decide (to_tree x = to_tree y)) as [H | H].
  - left. apply (f_equal of_tree) in H. rewrite !of_to_tree in H. congruence.
  - right. intros ->. apply H. reflexivity.
Defined.

#[local] Instance json_countable : Countable json :=
  inj_countable to_tree of_tree of_to_tree.

Fixpoint bits_of_pos (p : positive) : string :=
  match p with
  | xH => EmptyString
  | xO p' => String "0" (bits_of_pos p')
  | xI p' => String "1" (bits_of_pos p')
  end.

Fixpoint pos_of_bits (s : string) : option positive :=
  match s with
  | EmptyString => Some xH
  | String "0" rest => option_map xO (pos_of_bits rest)
  | String "1" rest => option_map xI (pos_of_bits rest)
  | String _ _ => None
  end.

(** What a token carries: payload, signing secret, issue and expiry time. *)
Definition claims : Type := list (string * json) * string * Z * Z.

Definition reference_sign (payload : list (string * json)) (secret : string)
    (ttl now : Z) : string :=
  "jwt." +:+ bits_of_pos (encode ((payload, secret, now, now + ttl) : claims)).

Definition reference_verify (token secret : string) (now : Z) : option json :=
  if String.prefix "jwt." token then
    match pos_of_bits (string_drop 4 token) with
    | Some p =>
        match (decode p : option claims) with
        | Some (payload, secret', issued, expiry) =>
            if String.eqb secret secret' && (now <? expiry)
            then Some (JObj (payload ++ [("iat", jint issued); ("exp", jint expiry)]))
            else None
        | None => None
        end
    | None => None
    end
  else None.

Definition reference_jwt : jsonwebtoken :=
  {| jwt_sign := reference_sign; jwt_verify := reference_verify |}.

(** ** The login helper (utils/auth.js) *)

(** A k6 response as [login] reads it: the status, and the body, which
    k6 leaves [null] ([None]) when there is none. *)
Record k6_response : Type := K6Response {
  response_status : Z;
  response_body : option string
}.

(** What [login] calls in its runtime: [http.post(url, body, params)],
    [JSON.stringify] and [JSON.parse] ([None] when it throws). *)
Class k6 : Type := K6 {
  http_post : string -> string -> json -> k6_response;
  JSON_stringify : json -> string;
  JSON_parse : string -> option json
}.

Section Login.

Context {runtime : k6}.

(** [JSON.parse(response.body)]: a [null] body is read as the text
    [null]. *)
Definition parse_body (b : option string) : option json :=
  match b with
  | Some text => JSON_parse text
  | None => Some JNull
  end.

(** [body.data?.token]: reading [data] off [null] throws ([None]); a
    [data] that is [undefined] or [null] short-circuits to [undefined]. *)
Definition data_token (parsed : json) : option (option json) :=
  match parsed with
  | JNull => None
  | _ =>
      match prop parsed "data" with
      | None | Some JNull => Some None
      | Some data => Some (prop data "token")
      end
  end.

(** [v || null] *)
Definition or_null (v : option json) : json :=
  match v with
  | Some x => if truthy v then x else JNull
  | None => JNull
  end.

Definition login_request (baseUrl username password : string) : k6_response :=
  let payload :=
    JSON_stringify (JObj [("username", JStr username); ("password", JStr password)]) in
  http_post (baseUrl +:+ "/api/auth/login") payload
    (JObj [("headers", JObj [("Content-Type", JStr "application/json")])]).

(** The result is a JavaScript value; [JNull] is [null]. *)
Definition login (baseUrl username password : string) : json :=
  let response := login_request baseUrl username password in
  if response_status response =? 200 then
    match parse_body (response_body response) with
    | Some parsed =>
        match data_token parsed with
        | Some token => or_null token
        | None => JNull
        end
    | None => JNull
    end
  else JNull.

(** The [data.token] member of a parsed body, [None] when there is none. *)
Definition token_member (parsed : json) : option json :=
  match prop parsed "data" with
  | Some data => prop data "token"
  | None => None
  end.

End Login.

(** ** Sample requests and runtimes *)

Definition noon : env := Env (1 # 2) 1700000000 "2023-11-14T22:13:20.000Z".

Definition hanako : reqbody :=
  BodyObject [("name", JStr "山田花子"); ("email", JStr "hanako@example.com")].

Definition alice : reqbody :=
  BodyObject [("username", JStr "alice"); ("password", JStr "secret")].

Definition alice_token : string :=
  @jwt_sign reference_jwt
    [("userId", jint (random_below noon 1000)); ("username", JStr "alice")]
    (JWT_SECRET initial_store) 3600 (clock noon).

(** A server that answers 200 with the document whose [data.token] is
    the number 1. *)
Definition dquote : string := String "034" EmptyString.

Definition numeric_token_text : string :=
  "{" +:+ dquote +:+ "data" +:+ dquote +:+ ":{" +:+ dquote +:+ "token" +:+ dquote +:+ ":1}}".

Definition numeric_token_runtime : k6 :=
  {| http_post := fun _ _ _ =>
       {| response_status := 200; response_body := Some numeric_token_text |};
     JSON_stringify := fun _ => EmptyString;
     JSON_parse := fun text =>
       if String.eqb text numeric_token_text
       then Some (JObj [("data", JObj [("token", jint 1)])])
       else None |}.

(** ** Objects built with a spread ([{ a: x, ...rest }]) *)

(** Assigning [o[k] = v]: an existing member keeps its place, a new one
    goes last. *)
Fixpoint set_member {A : Type} (k : string) (v : A) (l : list (string * A))
    : list (string * A) :=
  match l with
  | [] => [(k, v)]
  | (k', v') :: rest =>
      if String.eqb k k' then (k, v) :: rest else (k', v') :: set_member k v rest
  end.

(** [{ ...base, ...extra }]: the members of [extra] are assigned in
    order onto a copy of [base]. *)
Definition spread {A : Type} (base extra : list (string * A)) : list (string * A) :=
  fold_left (fun acc kv => set_member (fst kv) (snd kv) acc) extra base.

(** First binding of a key, for members of any type. *)
Fixpoint get_member {A : Type} (k : string) (l : list (string * A)) : option A :=
  match l with
  | [] => None
  | (k', v) :: rest => if String.eqb k k' then Some v else get_member k rest
  end.

(** A parameter with the default [{}]. *)
Definition default_object {A : Type} (o : option (list (string * A))) : list (string * A) :=
  match o with
  | Some l => l
  | None => []
  end.

(** ** The other helpers of utils/auth.js *)

Definition getAuthHeaders (token : string) : json :=
  JObj [ ("Authorization", JStr ("Bearer " +:+ token));
         ("Content-Type", JStr "application/json") ].

(** The second argument [authenticatedGet] hands to [http.get], and the
    third [authenticatedPost] hands to [http.post]:
    [{ headers: getAuthHeaders(token), ...params }]. *)
Definition authenticated_params (token : string)
    (params : option (list (string * json))) : json :=
  JObj (spread [("headers", getAuthHeaders token)] (default_object params)).

Section AuthenticatedRequests.

Context {runtime : k6}.
Variable http_get : string -> json -> k6_response.

Definition authenticatedGet (url token : string)
    (params : option (list (string * json))) : k6_response :=
  http_get url (authenticated_params token params).

Definition authenticatedPost (url : string) (data : json) (token : string)
    (params : option (list (string * json))) : k6_response :=
  http_post url (JSON_stringify data) (authenticated_params token params).

End AuthenticatedRequests.

(** Space and horizontal tab. *)
Definition is_blank (c : ascii) : bool :=
  Ascii.eqb c " " || Ascii.eqb c "009".

Fixpoint strip_leading (s : string) : string :=
  match s with
  | String c rest => if is_blank c then strip_leading rest else s
  | EmptyString => EmptyString
  end.

Fixpoint strip_trailing (s : string) : string :=
  match s with
  | EmptyString => EmptyString
  | String c rest =>
      match strip_trailing rest with
      | EmptyString => if is_blank c then EmptyString else String c EmptyString
      | rest' => String c rest'
      end
  end.

(** A header value as it reaches the other side: HTTP drops the blanks
    before and after it. *)
Definition header_value (h : string) : string := strip_trailing (strip_leading h).

(** The [Authorization] header of a header object, as the server receives
    it in [req.headers.authorization]. *)
Definition authorization_of (headers : json) : option string :=
  match prop headers "Authorization" with
  | Some (JStr h) => Some (header_value h)
  | _ => None
  end.

(** A printable ASCII character other than the space. *)
Definition visible (c : ascii) : bool :=
  let n := Z.of_N (N_of_ascii c) in (33 <=? n) && (n <=? 126).

Fixpoint all_visible (s : string) : bool :=
  match s with
  | EmptyString => true
  | String c rest => visible c && all_visible rest
  end.

(** A token that a header carries as it is: not empty, and made of
    printable characters only (as the base64url text of a JWT is). *)
Definition header_safe (token : string) : Prop :=
  token <> EmptyString /\ all_visible token = true.

(** [jwt.sign] makes such tokens. *)
Definition sign_header_safe (jwt : jsonwebtoken) : Prop :=
  forall payload secret ttl now, header_safe (jwt_sign payload secret ttl now).

(** ** Settings (utils/config.js) *)

(** The variables of [__ENV] the scripts read; [None] is unset. *)
Record k6_env : Type := K6Env {
  BASE_URL : option string;
  ENVIRONMENT : option string;
  VUS : option string;
  DURATION : option string;
  TIMEOUT : option string
}.

(** [__ENV.X || d] for a text default. *)
Definition env_or (x : option string) (d : string) : string :=
  match x with
  | Some s => if String.eqb s EmptyString then d else s
  | None => d
  end.

Record settings : Type := Settings {
  baseUrl : string;
  environment : string;
  vus : Z;
  duration : string;
  timeout : Z
}.

Definition config (ENV : k6_env) : settings :=
  {| baseUrl := env_or (BASE_URL ENV) "http://localhost:3000";
     environment := env_or (ENVIRONMENT ENV) "dev";
     vus := num_or (parseInt_opt (VUS ENV)) 10;
     duration := env_or (DURATION ENV) "1m";
     timeout := num_or (parseInt_opt (TIMEOUT ENV)) 30000 |}.

Definition thresholds_dev : json :=
  JObj [ ("http_req_failed", JArr [JStr "rate<0.1"]);
         ("http_req_duration", JArr [JStr "p(95)<1000"]);
         ("http_req_waiting", JArr [JStr "p(95)<800"]);
         ("checks", JArr [JStr "rate>0.9"]);
         ("iterations", JArr [JStr "count>10"]) ].

Definition thresholds_staging : json :=
  JObj [ ("http_req_failed", JArr [JStr "rate<0.05"]);
         ("http_req_duration", JArr [JStr "p(95)<500"]);
         ("http_req_waiting", JArr [JStr "p(95)<400"]);
         ("checks", JArr [JStr "rate>0.95"]);
         ("iterations", JArr [JStr "count>50"]) ].

Definition thresholds_production : json :=
  JObj [ ("http_req_failed", JArr [JStr "rate<0.01"]);
         ("http_req_duration", JArr [JStr "p(95)<300"; JStr "p(99)<500"]);
         ("http_req_waiting", JArr [JStr "p(95)<250"]);
         ("checks", JArr [JStr "rate>0.99"]);
         ("iterations", JArr [JStr "count>100"]) ].

Definition thresholds : list (string * json) :=
  [ ("dev", thresholds_dev);
    ("staging", thresholds_staging);
    ("production", thresholds_production) ].

(** A value a script can hold: a JSON value, or a member inherited from
    [Object.prototype] (a built-in function or object), named. *)
Inductive jsvalue : Type :=
| Json (v : json)
| Builtin (name : string).

Section Config.

(** Which names [Object.prototype] defines in the runtime
    ([constructor], [toString], ...). *)
Variable Object_prototype_has : string -> bool.

(** [o[k]] for an object literal [o]: an own member, else an inherited
    one, else [undefined]. *)
Definition read_member (own : list (string * json)) (k : string) : option jsvalue :=
  match lookup_field k own with
  | Some v => Some (Json v)
  | None => if Object_prototype_has k then Some (Builtin k) else None
  end.

Definition getThresholds (ENV : k6_env) : jsvalue :=
  match read_member thresholds (environment (config ENV)) with
  | Some (Json v) => if truthy (Some v) then Json v else Json thresholds_dev
  | Some (Builtin name) => Builtin name
  | None => Json thresholds_dev
  end.

Definition buildOptions (ENV : k6_env) (customOptions : option (list (string * jsvalue)))
    : list (string * jsvalue) :=
  spread
    [ ("vus", Json (jint (vus (config ENV))));
      ("duration", Json (JStr (duration (config ENV))));
      ("thresholds", getThresholds ENV) ]
    (default_object customOptions).

End Config.

(** ** Test data (utils/data-generator.js) *)

(** [Math.floor(r * n)] for a draw [r] of [Math.random()]. *)
Definition floor_random (r : Q) (n : Z) : Z := Qfloor (r * inject_Z n).

(** [s.charAt(pos)]: the empty string outside the string. *)
Definition charAt (s : string) (pos : Z) : string :=
  if pos <? 0 then EmptyString
  else match String.get (Z.to_nat pos) s with
       | Some c => String c EmptyString
       | None => EmptyString
       end.

Definition chars : string :=
  "ABCDEFGHIJKLMNOPQRSTUVWXYZabcdefghijklmnopqrstuvwxyz0123456789".

Definition generateUser (now : Z) (r : Q) : json :=
  let timestamp := now in
  let randomId := floor_random r 10000 in
  JObj [ ("name", JStr ("User_" +:+ show_Z timestamp +:+ "_" +:+ show_Z randomId));
         ("email", JStr ("user_" +:+ show_Z timestamp +:+ "_" +:+ show_Z randomId
                         +:+ "@example.com")) ].

Definition default_string (x : option string) (d : string) : string :=
  match x with
  | Some s => s
  | None => d
  end.

Definition generateEmail (prefix : option string) (now : Z) (r : Q) : string :=
  let timestamp := now in
  let randomId := floor_random r 10000 in
  default_string prefix "test" +:+ "_" +:+ show_Z timestamp +:+ "_" +:+ show_Z randomId
  +:+ "@example.com".

Definition randomInt (min max : Z) (r : Q) : Z :=
  floor_random r (max - min + 1) + min.

(** [array[i]] for a computed index: [undefined] outside the array. *)
Definition index {A : Type} (array : list A) (i : Z) : option A :=
  if i <? 0 then None else nth_error array (Z.to_nat i).

Definition randomChoice {A : Type} (array : list A) (r : Q) : option A :=
  index array (floor_random r (Z.of_nat (List.length array))).

Section RandomStrings.

(** The successive draws of [Math.random()]: [draws i] is the i-th. *)
Variable draws : nat -> Q.

(** The loop [for (let i = ...; i < length; i++) result += ...], with
    [remaining] iterations to go. *)
Fixpoint append_random_chars (remaining : nat) (i : nat) (result : string) : string :=
  match remaining with
  | O => result
  | S remaining' =>
      append_random_chars remaining' (S i)
        (result +:+ charAt chars (floor_random (draws i) (Z.of_nat (String.length chars))))
  end.

(** [length] is an integer; the default is 10. *)
Definition generateRandomString (length : option Z) : string :=
  let length := match length with Some n => n | None => 10 end in
  append_random_chars (Z.to_nat length) O EmptyString.

(** [generateFileContent] of scenarios/03-realistic/04-file-upload.js *)
Definition generateFileContent (sizeInKB : Z) : string :=
  let bytesNeeded := sizeInKB * 1024 in
  append_random_chars (Z.to_nat bytesNeeded) O EmptyString.

(** [generateDummyPayload]: [timestamps k] is [new Date().toISOString()]
    at the k-th push. The loop runs on [fuel]; [None] is a loop that has
    not finished when the fuel is spent. *)
Context {runtime : k6}.
Variable timestamps : nat -> string.

Definition dummy_item (dummyString : string) (items : list json) : json :=
  JObj [ ("id", jint (Z.of_nat (List.length items) + 1));
         ("data", JStr dummyString);
         ("timestamp", JStr (timestamps (List.length items))) ].

Fixpoint fill_items (fuel : nat) (targetSize : Z) (dummyString : string)
    (items : list json) (currentSize : Z) : option (list json) :=
  match fuel with
  | O => None
  | S fuel' =>
      if currentSize <? targetSize then
        let items' := (items ++ [dummy_item dummyString items])%list in
        fill_items fuel' targetSize dummyString items'
          (Z.of_nat (String.length (JSON_stringify (JArr items'))))
      else Some items
  end.

Definition generateDummyPayload (sizeInKB : option Z) : option json :=
  let sizeInKB := match sizeInKB with Some n => n | None => 1 end in
  let targetSize := sizeInKB * 1024 in
  let dummyString := generateRandomString (Some 100) in
  match fill_items (S (Z.to_nat targetSize)) targetSize dummyString [] 0 with
  | Some items => Some (JObj [("items", JArr items)])
  | None => None
  end.

End RandomStrings.

(** ** Checks of the scenarios *)

(** [a && b] on values: the first falsy operand, else the last. Only its
    truth matters to [check]. *)
Definition both (a b : option json) : option json :=
  if truthy a then b else a.

(** The checks of scenarios/03-realistic/01-authentication.js on a parsed
    body: [body.success && body.data && body.data.token] and
    [body.success && body.data && body.data.userId]. *)
Definition check_token_received (body : json) : bool :=
  truthy (both (both (prop body "success") (prop body "data"))
               (match prop body "data" with
                | Some data => prop data "token"
                | None => None
                end)).

Definition check_user_info_received (body : json) : bool :=
  truthy (both (both (prop body "success") (prop body "data"))
               (match prop body "data" with
                | Some data => prop data "userId"
                | None => None
                end)).

(** ** A script connected to the mock server *)

(** The request declares a JSON body: its [params] carry the header
    [Content-Type: application/json], without which [express.json()]
    leaves the body unread. *)
Definition sends_json (params : json) : bool :=
  match prop params "headers" with
  | Some headers =>
      match prop headers "Content-Type" with
      | Some (JStr t) => String.eqb t "application/json"
      | _ => false
      end
  | None => false
  end.

(** The script reads back the documents the login handler sends. *)
Definition reads_login_answers {jwt : jsonwebtoken} (runtime : k6) (st : store) : Prop :=
  forall (b : reqbody) (e : env),
    JSON_parse (JSON_stringify (body (serve st (PostLogin b) e))) =
    Some (body (serve st (PostLogin b) e)).

(** [http.post] of serialised credentials on [/api/auth/login] of
    [baseUrl], declared as JSON, reaches the login handler of a server in
    state [st], observing [e], which reads the two posted members and
    whose answer comes back serialised. *)
Definition posts_to_server {jwt : jsonwebtoken} (runtime : k6) (st : store) (e : env)
    (baseUrl : string) : Prop :=
  forall (username password : string) (params : json),
    sends_json params = true ->
    http_post (baseUrl +:+ "/api/auth/login")
      (JSON_stringify (JObj [("username", JStr username); ("password", JStr password)]))
      params =
    let r := serve st (PostLogin (BodyObject [("username", JStr username);
                                              ("password", JStr password)])) e in
    {| response_status := status r;
       response_body := Some (JSON_stringify (body r)) |}.

(** A runtime that is connected in this way: documents travel as the
    binary numeral of their code, and a request that does not declare a
    JSON body reaches the handler with the empty object. *)
Definition wire_stringify (v : json) : string := bits_of_pos (encode v).

Definition wire_parse (text : string) : option json :=
  match pos_of_bits text with
  | Some p => decode p
  | None => None
  end.

Definition connected_runtime (st : store) (e : env) : k6 :=
  {| http_post := fun _ payload params =>
       let posted :=
         if sends_json params then
           match wire_parse payload with
           | Some (JObj fields) => Some (BodyObject fields)
           | Some (JArr items) => Some (BodyArray items)
           | _ => None
           end
         else Some (BodyObject []) in
       match posted with
       | Some b =>
           let r := @serve reference_jwt st (PostLogin b) e in
           {| response_status := status r;
              response_body := Some (wire_stringify (body r)) |}
       | None =>
           {| response_status := status error_response;
              response_body := Some (wire_stringify (body error_response)) |}
       end;
     JSON_stringify := wire_stringify;
     JSON_parse := wire_parse |}.

(** A serialiser whose output length is the number of items, for the
    loop of [generateDummyPayload]. *)
Definition counting_runtime : k6 :=
  {| http_post := fun _ _ _ => {| response_status := 0; response_body := None |};
     JSON_stringify := fun v =>
       match v with
       | JArr items => string_repeat "x" (2 + 150 * List.length items)
       | _ => EmptyString
       end;
     JSON_parse := fun _ => None |}.

(** [Number.MAX_SAFE_INTEGER]: up to it in magnitude an integer is a
    JavaScript number as it stands, and [parseInt] and the decimal
    printing of a number are exact. *)
Definition MAX_SAFE_INTEGER : Z := 9007199254740991.

(** A draw [Math.random()] can make: the multiple [k / 2^52] of [2^-52],
    for [0 <= k < 2^52]. *)
Definition draw (k : Z) : Q := k # 4503599627370496.

(** [c] does not occur in [s]. *)
Fixpoint free_of (c : ascii) (s : string) : Prop :=
  match s with
  | EmptyString => True
  | String a rest => a <> c /\ free_of c rest
  end.

(** Every character of [s] occurs in [alphabet]. *)
Definition drawn_from (alphabet s : string) : Prop :=
  forall i c, String.get i s = Some c -> exists j, String.get j alphabet = Some c.

(** A sequence of draws that are all one half. *)
Definition half : nat -> Q := fun _ => 1 # 2.

(** * Part II: properties *)

(** ** [parseInt] reads back what [String(n)] writes *)

Example parseInt_examples :
  parseInt "42" = Some 42 /\ parseInt "  -17px" = Some (-17) /\
  parseInt "0x1F4" = Some 500 /\ parseInt "abc" = None /\
  parseInt EmptyString = None /\ parseInt "0x" = None /\ parseInt "+0" = Some 0 /\
  parseInt (String "009" "7") = Some 7 /\ parseInt "1e3" = Some 1 /\
  parseInt_opt None = None /\ show_Z (-120) = "-120" /\ show_Z 0 = "0".
Proof. repeat split; reflexivity. Qed.

Lemma digit_of_digit_char (d : Z) :
  0 <= d < 10 -> digit_of 10 (digit_char d) = Some d.
Proof.
  intros H.
  assert (C : d = 0 \/ d = 1 \/ d = 2 \/ d = 3 \/ d = 4 \/ d = 5 \/ d = 6 \/
              d = 7 \/ d = 8 \/ d = 9) by lia.
  repeat (destruct C as [-> | C]; [reflexivity |]); subst; reflexivity.
Qed.

Lemma digits_fuel_value (fuel : nat) :
  forall n acc, 0 <= n < Z.of_nat fuel ->
    parse_digits 10 0 (digits_fuel fuel n acc) = parse_digits 10 n acc.
Proof.
  induction fuel as [| fuel IH]; intros n acc Hn; [lia |].
  cbn [digits_fuel].
  assert (Hm : 0 <= n mod 10 < 10) by (apply Z.mod_pos_bound; lia).
  destruct (Z.eqb_spec (n / 10) 0) as [Hq | Hq].
  - cbn [parse_digits]. rewrite digit_of_digit_char by exact Hm.
    f_equal. pose proof (Z.div_mod n 10 ltac:(lia)). lia.
  - assert (0 < n / 10) by (pose proof (Z.div_pos n 10); lia).
    assert (0 < n) by (destruct (Z.eq_dec n 0) as [-> | ?]; [discriminate | lia]).
    assert (n / 10 < n) by (apply Z.div_lt; lia).
    rewrite IH by lia.
    cbn [parse_digits]. rewrite digit_of_digit_char by exact Hm.
    f_equal. pose proof (Z.div_mod n 10 ltac:(lia)). lia.
Qed.

(** The first character of a decimal rendering is a digit, and what
    follows it is again a digit or the end. *)
Lemma digits_fuel_shape (fuel : nat) :
  forall n acc, exists d rest,
    0 <= d < 10 /\ digits_fuel (S fuel) n acc = String (digit_char d) rest /\
    (rest = acc \/ starts_digit rest).
Proof.
  induction fuel as [| fuel IH]; intros n acc;
    assert (Hm : 0 <= n mod 10 < 10) by (apply Z.mod_pos_bound; lia).
  - exists (n mod 10), acc. cbn. destruct (n / 10 =? 0); auto.
  - cbn [digits_fuel]. destruct (n / 10 =? 0) eqn:Hq.
    + exists (n mod 10), acc. auto.
    + destruct (IH (n / 10) (String (digit_char (n mod 10)) acc))
        as (d & rest & Hd & Heq & Hrest).
      cbn [digits_fuel] in Heq. exists d, rest. repeat split; try tauto.
      right. destruct Hrest as [-> | Hs]; [| exact Hs].
      exists (n mod 10), acc. auto.
Qed.

Lemma digit_cases (d : Z) (P : Z -> Prop) :
  0 <= d < 10 ->
  P 0 -> P 1 -> P 2 -> P 3 -> P 4 -> P 5 -> P 6 -> P 7 -> P 8 -> P 9 -> P d.
Proof.
  intros H ? ? ? ? ? ? ? ? ? ?.
  assert (C : d = 0 \/ d = 1 \/ d = 2 \/ d = 3 \/ d = 4 \/ d = 5 \/ d = 6 \/
              d = 7 \/ d = 8 \/ d = 9) by lia.
  repeat (destruct C as [-> | C]; [assumption |]); subst; assumption.
Qed.

Lemma trim_start_digit (d : Z) (rest : string) :
  0 <= d < 10 ->
  trim_start (String (digit_char d) rest) = String (digit_char d) rest.
Proof.
  intros H. unfold trim_start. cbn [String.length trim_start_fuel].
  revert rest. pattern d. apply digit_cases; [exact H | ..]; reflexivity.
Qed.

Lemma no_hex_prefix (d : Z) (rest : string) :
  0 <= d < 10 -> rest = EmptyString \/ starts_digit rest ->
  String.prefix "0x" (String (digit_char d) rest)
  || String.prefix "0X" (String (digit_char d) rest) = false.
Proof.
  intros H Hrest. revert Hrest. pattern d.
  apply digit_cases; [exact H | ..]; try reflexivity.
  intros [-> | (d' & r & Hd' & ->)]; [reflexivity |].
  pattern d'. apply digit_cases; [exact Hd' | ..]; reflexivity.
Qed.

Lemma parse_magnitude_digits (n : Z) :
  0 <= n -> parse_magnitude (digits n) = Some n.
Proof.
  intros Hn. unfold digits.
  destruct (digits_fuel_shape (Z.to_nat n) n EmptyString) as (d & rest & Hd & Heq & Hrest).
  assert (Hv := digits_fuel_value (S (Z.to_nat n)) n EmptyString ltac:(lia)).
  rewrite Heq in *. unfold parse_magnitude.
  rewrite no_hex_prefix by assumption.
  unfold parse_radix. rewrite digit_of_digit_char by exact Hd.
  rewrite Hv. reflexivity.
Qed.

Lemma parseInt_digits (n : Z) : 0 <= n -> parseInt (digits n) = Some n.
Proof.
  intros Hn. rewrite <- (parse_magnitude_digits n Hn). unfold digits.
  destruct (digits_fuel_shape (Z.to_nat n) n EmptyString) as (d & rest & Hd & Heq & _).
  rewrite Heq. unfold parseInt. rewrite trim_start_digit by exact Hd.
  pattern d. apply digit_cases; [exact Hd | ..]; reflexivity.
Qed.

Lemma parseInt_minus (s : string) :
  parseInt (String "-" s) = option_map Z.opp (parse_magnitude s).
Proof. reflexivity. Qed.

(** Round trip: the decimal rendering of any integer parses back to it. *)
Lemma parseInt_show_Z (n : Z) : parseInt (show_Z n) = Some n.
Proof.
  unfold show_Z. destruct (Z.ltb_spec n 0) as [Hneg | Hpos].
  - rewrite parseInt_minus, parse_magnitude_digits by lia.
    cbn. f_equal. lia.
  - apply parseInt_digits. exact Hpos.
Qed.

(** ** The reference implementation meets the interface *)

Lemma pos_of_bits_of_pos (p : positive) : pos_of_bits (bits_of_pos p) = Some p.
Proof. induction p as [p IH | p IH |]; cbn; rewrite ?IH; reflexivity. Qed.

Lemma reference_verify_sign payload secret ttl issued now :
  @jwt_verify reference_jwt (@jwt_sign reference_jwt payload secret ttl issued) secret now =
  if now <? issued + ttl
  then Some (JObj (payload ++ [("iat", jint issued); ("exp", jint (issued + ttl))]))
  else None.
Proof.
  cbn [jwt_verify jwt_sign reference_jwt]. unfold reference_verify, reference_sign.
  change (String.prefix "jwt." ("jwt." +:+ ?x)) with (String.prefix EmptyString x).
  change (string_drop 4 ("jwt." +:+ ?x)) with x.
  replace (String.prefix EmptyString _) with true by (symmetry; apply prefix_correct; destruct (bits_of_pos _); reflexivity).
  rewrite pos_of_bits_of_pos, decode_encode, String.eqb_refl. reflexivity.
Qed.

Lemma reference_sign_nonempty : sign_nonempty reference_jwt.
Proof. intros payload secret ttl now. discriminate. Qed.

Lemma reference_verify_fresh : verify_fresh reference_jwt.
Proof.
  intros payload secret ttl issued now _ _ H. rewrite reference_verify_sign.
  destruct (Z.ltb_spec now (issued + ttl)); [reflexivity | lia].
Qed.

Lemma reference_verify_expired : verify_expired reference_jwt.
Proof.
  intros payload secret ttl issued now H. rewrite reference_verify_sign.
  destruct (Z.ltb_spec now (issued + ttl)); [lia | reflexivity].
Qed.

(** ** Properties of the handlers *)

(** A few facts about ToBoolean: an absent field is falsy, and a string
    is truthy exactly when it is not empty. *)
Lemma truthy_absent : truthy None = false.
Proof. reflexivity. Qed.

Lemma truthy_string (s : string) : truthy (Some (JStr s)) = true <-> s <> EmptyString.
Proof.
  cbn. destruct (String.eqb_spec s EmptyString); cbn; split; congruence.
Qed.

Lemma truthy_is_some (v : option json) : truthy v = true -> exists x, v = Some x.
Proof. destruct v as [x |]; [eauto | discriminate]. Qed.

(** [Math.floor(Math.random() * n)] is an integer below [n]. *)
Lemma random_below_range (e : env) (n : Z) :
  (0 <= random e)%Q -> (random e < 1)%Q -> 0 < n -> 0 <= random_below e n < n.
Proof.
  intros H0 H1 Hn. unfold random_below.
  assert (Hn' : (inject_Z 0 < inject_Z n)%Q) by (rewrite <- Zlt_Qlt; exact Hn).
  split.
  - change 0 with (Qfloor (inject_Z 0)). apply Qfloor_resp_le.
    apply Qmult_le_0_compat; [exact H0 | apply Qlt_le_weak, Hn'].
  - rewrite Zlt_Qlt. eapply Qle_lt_trans; [apply Qfloor_le |].
    apply Qlt_le_trans with (1 * inject_Z n)%Q.
    + apply Qmult_lt_compat_r; assumption.
    + rewrite Qmult_1_l. apply Qle_refl.
Qed.

Section Server.

Context {jwt : jsonwebtoken}.
Variable st : store.

(** C1. POST /api/users. A field counts as present (non-empty) when the
    handler's own test [!field] fails: it is in the body and is not
    [null], [false], [0] or the empty string. When [name] and [email] are
    both present the answer is 201, and its [data] holds a numeric [id]
    (the integer [Math.floor(Math.random() * 10000)]) together with the
    submitted [name] and [email]; when one of them is
    missing the answer is 400 with [success: false]; and 400 is returned
    in that case only. *)
Theorem post_users_created_or_rejected (b : reqbody) (e : env) :
  let name := body_field b "name" in
  let email := body_field b "email" in
  let r := serve st (PostUsers b) e in
  (truthy name = true /\ truthy email = true ->
     status r = 201 /\
     exists n m : json,
       name = Some n /\ email = Some m /\
       prop (body r) "success" = Some (JBool true) /\
       prop (body r) "data" =
         Some (JObj [("id", jint (random_below e 10000)); ("name", n);
                     ("email", m); ("createdAt", JStr (timestamp e))])) /\
  (truthy name = false \/ truthy email = false ->
     status r = 400 /\ prop (body r) "success" = Some (JBool false)) /\
  (status r = 400 <-> truthy name = false \/ truthy email = false).
Proof.
  cbv zeta. unfold serve, handle, post_users.
  destruct (truthy (body_field b "name")) eqn:Hn;
    destruct (truthy (body_field b "email")) eqn:He; cbn [negb orb].
  - destruct (truthy_is_some _ Hn) as [n Hn'], (truthy_is_some _ He) as [m Hm'].
    rewrite Hn', Hm'. cbn. split; [| split; [| split]].
    + intros _. split; [reflexivity |].
      exists n, m. auto.
    + intros [H | H]; discriminate H.
    + discriminate.
    + intros [H | H]; discriminate H.
  - cbn. split; [| split; [| split]]; auto. intros [? ?]; discriminate.
  - cbn. split; [| split; [| split]]; auto. intros [? ?]; discriminate.
  - cbn. split; [| split; [| split]]; auto. intros [? ?]; discriminate.
Qed.

Lemma is_wrong_spec (password : option json) :
  is_wrong password = true <-> password = Some (JStr "wrong").
Proof.
  destruct password as [[| ? | ? | s | ? | ?] |]; cbn; try (split; congruence).
  destruct (String.eqb_spec s "wrong"); split; congruence.
Qed.

(** What the login handler answers, case by case. *)
Lemma login_handler_cases (b : reqbody) (e : env) :
  let username := body_field b "username" in
  let password := body_field b "password" in
  serve st (PostLogin b) e =
  if negb (truthy username && truthy password) then
    {| timer := None; status := 400;
       body := JObj [("success", JBool false);
                     ("error", JStr "username と password は必須です")] |}
  else if is_wrong password then
    {| timer := None; status := 401;
       body := JObj [("success", JBool false); ("error", JStr "認証に失敗しました")] |}
  else
    {| timer := None; status := 200;
       body := JObj [
         ("success", JBool true);
         ("data", JObj [
            ("token", JStr (jwt_sign
               (members [("userId", Some (jint (random_below e 1000)));
                         ("username", username)])
               (JWT_SECRET st) 3600 (clock e)));
            ("expiresIn", jint 3600) ]) ] |}.
Proof.
  cbv zeta. unfold serve, handle, login_handler.
  destruct (truthy (body_field b "username")), (truthy (body_field b "password"));
    cbn [negb orb andb]; try reflexivity.
  destruct (is_wrong (body_field b "password")); reflexivity.
Qed.

(** A header [Bearer <token>] passes the shape test, and the token is what
    follows the seventh character. *)
Lemma me_handler_bearer (token : string) (e : env) :
  me_handler st (Some ("Bearer " +:+ token)) e =
  match jwt_verify token (JWT_SECRET st) (clock e) with
  | Some decoded =>
      reply 200 (JObj [
        ("success", JBool true);
        ("data", JObj (members [
           ("userId", prop decoded "userId");
           ("username", prop decoded "username") ])) ])
  | None => failure 401 "トークンが無効です"
  end.
Proof.
  unfold me_handler. cbn [String.append String.eqb orb].
  replace (String.prefix "Bearer " _) with true; [reflexivity |].
  cbn. destruct token; reflexivity.
Qed.

(** C2, as the code has it. POST /api/auth/login first requires both
    [username] and [password] (400 otherwise). With both present, the
    password ["wrong"] is answered 401, and every other password 200
    with a non-empty [token] in [data]. *)
Theorem login_requires_both_then_checks_password
    (Hsign : sign_nonempty jwt) (b : reqbody) (e : env) :
  let username := body_field b "username" in
  let password := body_field b "password" in
  let r := serve st (PostLogin b) e in
  (truthy username = false \/ truthy password = false -> status r = 400) /\
  (truthy username = true -> password = Some (JStr "wrong") -> status r = 401) /\
  (truthy username = true -> truthy password = true ->
   password <> Some (JStr "wrong") ->
     status r = 200 /\
     exists token,
       token <> EmptyString /\
       prop (body r) "data" =
         Some (JObj [("token", JStr token); ("expiresIn", jint 3600)])).
Proof.
  cbv zeta. rewrite login_handler_cases. cbv zeta.
  split; [| split].
  - intros [-> | ->]; rewrite ?andb_false_r; reflexivity.
  - intros -> ->. reflexivity.
  - intros -> -> Hw.
    destruct (is_wrong (body_field b "password")) eqn:W.
    + apply is_wrong_spec in W. contradiction.
    + cbn. split; [reflexivity |]. eexists. split; [apply Hsign | reflexivity].
Qed.

(** C3, as the code has it. A token issued by POST /api/auth/login and
    presented as [Authorization: Bearer <token>] less than 3600 seconds
    after it was issued is answered 200 by GET /api/auth/me, with the
    [username] that logged in; and a request without the header, with a
    header that does not start with [Bearer ], or with a token that
    [jwt.verify] rejects is answered 401. *)
Theorem me_returns_login_username_until_expiry
    (Hfresh : verify_fresh jwt) (b : reqbody) (e e' : env) (token : string) :
  let issued := serve st (PostLogin b) e in
  (status issued = 200 ->
   issued_token issued = Some (JStr token) ->
   clock e' < clock e + 3600 ->
     exists username,
       body_field b "username" = Some username /\
       serve st (GetMe (Some ("Bearer " +:+ token))) e' =
       {| timer := None; status := 200;
          body := JObj [
            ("success", JBool true);
            ("data", JObj [("userId", jint (random_below e 1000));
                           ("username", username)]) ] |}) /\
  (forall authorization,
     authorization = None \/
     (exists h, authorization = Some h /\ String.prefix "Bearer " h = false) \/
     (exists t, authorization = Some ("Bearer " +:+ t) /\
                jwt_verify t (JWT_SECRET st) (clock e') = None) ->
     status (serve st (GetMe authorization) e') = 401).
Proof.
  cbv zeta. split.
  - rewrite login_handler_cases. cbv zeta.
    destruct (truthy (body_field b "username")) eqn:Hu; [| cbn; discriminate].
    destruct (truthy (body_field b "password")); [| cbn; discriminate].
    cbn [andb negb].
    destruct (is_wrong (body_field b "password")); [cbn; discriminate |].
    destruct (truthy_is_some _ Hu) as [username Eu]. rewrite Eu.
    cbn. intros _ Htok Hclock. injection Htok as <-.
    exists username. split; [reflexivity |].
    unfold serve, handle. rewrite me_handler_bearer.
    rewrite Hfresh by (reflexivity || exact Hclock). reflexivity.
  - intros authorization [-> | [(h & -> & Hp) | (t & -> & Hv)]].
    + reflexivity.
    + unfold serve, handle, me_handler. rewrite Hp.
      rewrite orb_true_r. reflexivity.
    + unfold serve, handle. rewrite me_handler_bearer, Hv. reflexivity.
Qed.

(** Once the hour has passed the same token is refused. *)
Lemma me_refuses_expired (Hexp : verify_expired jwt) (payload : list (string * json))
    (issued : Z) (e' : env) :
  issued + 3600 <= clock e' ->
  status (serve st (GetMe (Some ("Bearer " +:+
            jwt_sign payload (JWT_SECRET st) 3600 issued))) e') = 401.
Proof.
  intros H. unfold serve, handle. rewrite me_handler_bearer, Hexp by exact H.
  reflexivity.
Qed.


Lemma Array_from_length_ok (len : Z) (f : Z -> json) :
  0 <= len <= 4294967295 ->
  exists items,
    Array_from_length len f = Some items /\
    Z.of_nat (List.length items) = len /\
    forall i : nat, (i < Z.to_nat len)%nat -> nth_error items i = Some (f (Z.of_nat i)).
Proof.
  intros H. unfold Array_from_length.
  destruct (Z.ltb_spec 4294967295 len); [lia |].
  eexists. split; [reflexivity |]. split.
  - rewrite length_map, length_seq. lia.
  - intros i Hi. rewrite nth_error_map, nth_error_seq.
    destruct (Nat.ltb_spec i (Z.to_nat len)); [reflexivity | lia].
Qed.




(** A status the HTTP layer accepts is echoed. *)
Lemma status_handler_number (c : Z) :
  100 <= c <= 999 ->
  status_handler (show_Z c) =
  reply c (JObj [("success", JBool (c <? 400)); ("statusCode", jint c);
                 ("message", JStr (message_for c))]).
Proof.
  intros Hr. unfold status_handler. rewrite parseInt_show_Z. cbn [num_or].
  destruct (Z.eqb_spec c 0); [lia |].
  unfold reply_checked.
  destruct (Z.leb_spec 100 c); [| lia].
  destruct (Z.leb_spec c 999); [| lia]. reflexivity.
Qed.

(** C6. GET /api/status/:code. For every status code [c] that the HTTP
    layer accepts (100 to 999, which covers the registered 100 to 599)
    given in decimal, the response has status [c] and its [success] is
    true if and only if [c < 400]; for a parameter that is not a number
    the status is 200. *)
Theorem status_echoes_code (e : env) :
  (forall c : Z, 100 <= c <= 999 ->
     let r := serve st (GetStatus (show_Z c)) e in
     status r = c /\
     exists ok : bool,
       prop (body r) "success" = Some (JBool ok) /\ (ok = true <-> c < 400)) /\
  (forall code : string, parseInt code = None ->
     status (serve st (GetStatus code) e) = 200).
Proof.
  split.
  - intros c Hc. cbv zeta. unfold serve, handle.
    rewrite status_handler_number by lia. cbn. split; [reflexivity |].
    exists (c <? 400). split; [reflexivity |]. apply Z.ltb_lt.
  - intros code Hcode. unfold serve, handle, status_handler.
    rewrite Hcode. reflexivity.
Qed.

(** No route assigns a module-level binding: route by route, the store
    left is the store found. *)
Lemma route_assigns_nothing (rq : request) (e : env) (s : store) :
  snd (route rq e s) = s.
Proof. destruct rq; reflexivity. Qed.

(** What a route sends is what its handler computes from the request,
    the environment and the bindings it reads. *)
Lemma route_outcome (rq : request) (e : env) (s : store) :
  fst (route rq e s) = handle s rq e.
Proof. destruct rq; reflexivity. Qed.

Lemma step_serve (s : store) (rq : request) (e : env) :
  step s rq e = (serve s rq e, s).
Proof.
  unfold step, serve.
  pose proof (route_assigns_nothing rq e s) as Hs.
  pose proof (route_outcome rq e s) as Ho.
  destruct (route rq e s) as [o s']. cbn in Hs, Ho. subst. reflexivity.
Qed.

(** The store never changes, whatever is served. *)
Lemma run_keeps_store (s : store) (history : list (request * env)) :
  snd (run s history) = s.
Proof.
  induction history as [| [rq e] rest IH]; [reflexivity |].
  cbn [run]. rewrite step_serve. destruct (run s rest) as [rs s'].
  exact IH.
Qed.

(** Each response of a run is the answer to its own request alone. *)
Lemma run_responses (s : store) (history : list (request * env)) :
  fst (run s history) = List.map (fun '(rq, e) => serve s rq e) history.
Proof.
  induction history as [| [rq e] rest IH]; [reflexivity |].
  cbn [run List.map]. rewrite step_serve. destruct (run s rest) as [rs s'].
  cbn in IH |- *. rewrite IH. reflexivity.
Qed.

(** C7. The server keeps no state between requests. Every handler is run
    as an effect on the module-level bindings, and after any sequence of
    requests (POST, PUT and DELETE on /api/users among them) the bindings
    are what they were and each request was answered as it would have
    been alone. Afterwards GET /api/users answers the same three users
    (ids 1, 2, 3 with their names and addresses), and DELETE
    /api/users/:id answers with [success] and a [message] and nothing
    else, leaving the bindings as they are, so that the next GET
    /api/users still lists the three. *)
Theorem no_state_across_requests (history : list (request * env)) (e : env) :
  let three_users :=
    {| timer := None; status := 200;
       body := JObj [
         ("success", JBool true);
         ("data", JArr [
            JObj [("id", JNum (1 # 1)); ("name", JStr "田中太郎");
                  ("email", JStr "tanaka@example.com")];
            JObj [("id", JNum (2 # 1)); ("name", JStr "佐藤花子");
                  ("email", JStr "sato@example.com")];
            JObj [("id", JNum (3 # 1)); ("name", JStr "鈴木一郎");
                  ("email", JStr "suzuki@example.com")] ]) ] |} in
  let st' := snd (run st history) in
  st' = st /\
  fst (run st history) = List.map (fun '(rq, e) => serve st rq e) history /\
  fst (step st' GetUsers e) = three_users /\
  forall (id : string) (e' : env),
    let '(r, st'') := step st' (DeleteUser id) e in
    r = {| timer := None; status := 200;
           body := JObj [
             ("success", JBool true);
             ("message", JStr ("ユーザーID " +:+ show_num (parseInt id) +:+ " を削除しました")) ] |} /\
    st'' = st' /\
    fst (step st'' GetUsers e') = three_users.
Proof.
  cbv zeta. rewrite run_keeps_store, run_responses.
  split; [reflexivity |]. split; [reflexivity |]. split; [reflexivity |].
  intros id e'. rewrite step_serve.
  split; [reflexivity |]. split; reflexivity.
Qed.

(** [Math.random() < 0.2] decided on the draw. *)
Lemma random_error_cases (e : env) :
  serve st GetRandomError e =
  if Qlt_le_dec (random e) (2 # 10) then
    {| timer := None; status := 500;
       body := JObj [("success", JBool false);
                     ("error", JStr "ランダムに発生したサーバーエラー")] |}
  else
    {| timer := None; status := 200;
       body := JObj [("success", JBool true);
                     ("data", JObj [("message", JStr "正常にレスポンスを返しました")])] |}.
Proof.
  unfold serve, handle, random_error.
  destruct (Qlt_le_dec (random e) (2 # 10)) as [Hlt | Hle].
  - destruct (Qle_bool (2 # 10) (random e)) eqn:Hb; [| reflexivity].
    apply Qle_bool_iff in Hb. exfalso. exact (Qlt_not_le _ _ Hlt Hb).
  - apply Qle_bool_iff in Hle. rewrite Hle. reflexivity.
Qed.

Lemma count_below (m n : nat) :
  List.length (List.filter (fun k => Nat.ltb k m) (seq 0 n)) = Nat.min m n.
Proof.
  induction n as [| n IH]; [rewrite Nat.min_0_r; reflexivity |].
  rewrite seq_S, List.filter_app, length_app, IH. cbn [List.filter plus].
  destruct (Nat.ltb_spec n m); cbn [List.length]; lia.
Qed.

(** Of [n] equally spaced draws, the first [ceil(n / 5)] fail. *)
Lemma failures_grid (n : positive) :
  failures st (grid n) = ((Pos.to_nat n + 4) / 5)%nat.
Proof.
  unfold failures, grid.
  set (bound := ((Pos.to_nat n + 4) / 5)%nat).
  assert (Hb : (5 * bound <= Pos.to_nat n + 4 < 5 * bound + 5)%nat).
  { subst bound. pose proof (Nat.div_mod_eq (Pos.to_nat n + 4) 5).
    pose proof (Nat.mod_upper_bound (Pos.to_nat n + 4) 5). lia. }
  transitivity (List.length (List.filter (fun k => Nat.ltb k bound)
                               (seq 0 (Pos.to_nat n)))).
  - induction (seq 0 (Pos.to_nat n)) as [| k ks IH]; [reflexivity |].
    cbn [List.map List.filter]. rewrite random_error_cases. cbn [random].
    destruct (Qlt_le_dec (Z.of_nat k # n) (2 # 10)) as [H | H];
      unfold Qlt, Qle in H; cbn [Qnum Qden] in H;
      destruct (Nat.ltb_spec k bound); cbn [status Z.eqb Pos.eqb List.length];
      rewrite ?IH; try reflexivity; exfalso; lia.
  - rewrite count_below. lia.
Qed.

Lemma failures_grid_fifth (m : positive) :
  failures st (grid (5 * m)%positive) = Pos.to_nat m.
Proof.
  rewrite failures_grid, Pos2Nat.inj_mul.
  change (Pos.to_nat 5) with 5%nat.
  pose proof (Nat.div_mod_eq (5 * Pos.to_nat m + 4) 5).
  pose proof (Nat.mod_upper_bound (5 * Pos.to_nat m + 4) 5). lia.
Qed.

(** C8. GET /api/random-error, with the draw of [Math.random()] as an
    input [r] of [0, 1): the answer is 500 with [success: false] exactly
    when [r < 0.2], and 200 with [success: true] otherwise. The failing
    draws are thus the interval [0, 0.2): of [n] equally spaced draws of
    [0, 1) the first [ceil(n / 5)] fail, and of [5 m] such draws exactly
    [m], one in five. *)
Theorem random_error_one_in_five :
  (forall e : env,
     let r := serve st GetRandomError e in
     (status r = 500 /\ prop (body r) "success" = Some (JBool false) <->
      (random e < 2 # 10)%Q) /\
     (status r = 200 /\ prop (body r) "success" = Some (JBool true) <->
      ~ (random e < 2 # 10)%Q)) /\
  (forall n : positive, failures st (grid n) = ((Pos.to_nat n + 4) / 5)%nat) /\
  (forall m : positive, failures st (grid (5 * m)%positive) = Pos.to_nat m).
Proof.
  split; [| split; [exact failures_grid | exact failures_grid_fifth]].
  intros e. cbv zeta. rewrite random_error_cases.
  destruct (Qlt_le_dec (random e) (2 # 10)) as [H | H]; cbn [status body prop lookup_field String.eqb Ascii.eqb Bool.eqb].
  - split; split.
    + intros _. exact H.
    + intros _. split; reflexivity.
    + intros [E _]. discriminate E.
    + intros Hn. exfalso. apply Hn, H.
  - apply Qle_not_lt in H. split; split.
    + intros [E _]. discriminate E.
    + intros Hlt. exfalso. apply H, Hlt.
    + intros _. exact H.
    + intros _. split; reflexivity.
Qed.

(** C9. Every answer of the application other than that of /health (the
    404 fallback and the error handler included) carries a boolean
    [success], which is true if and only if the status is below 400. *)
Theorem success_flag_matches_status (rq : request) (e : env) :
  rq <> GetHealth ->
  let r := serve st rq e in
  exists ok : bool,
    prop (body r) "success" = Some (JBool ok) /\ (ok = true <-> status r < 400).
Proof.
  intros Hrq. cbv zeta.
  assert (H : prop (body (serve st rq e)) "success" =
              Some (JBool (status (serve st rq e) <? 400))).
  { destruct rq as [| | id | b | id b | id | b | authorization | ms | | code | | size | | |];
      try contradiction; unfold serve, handle; try reflexivity.
    - unfold post_users.
      destruct (negb (truthy (body_field b "name"))
                || negb (truthy (body_field b "email"))); reflexivity.
    - unfold login_handler.
      destruct (negb (truthy (body_field b "username"))
                || negb (truthy (body_field b "password"))); [reflexivity |].
      destruct (is_wrong (body_field b "password")); reflexivity.
    - unfold me_handler. destruct authorization as [h |]; [| reflexivity].
      destruct (String.eqb h EmptyString || negb (String.prefix "Bearer " h)); [reflexivity |].
      destruct (jwt_verify _ _ _); reflexivity.
    - unfold status_handler, reply_checked.
      destruct ((100 <=? _) && (_ <=? 999)); reflexivity.
    - unfold random_error.
      destruct (negb (Qle_bool (2 # 10) (random e))); reflexivity.
    - unfold large_payload.
      destruct (Array_from_length _ _); reflexivity. }
  eexists. split; [exact H |]. apply Z.ltb_lt.
Qed.

End Server.

(** ** The handlers on concrete requests *)

Example post_users_hanako :
  @serve reference_jwt initial_store (PostUsers hanako) noon =
  {| timer := None; status := 201;
     body := JObj [
       ("success", JBool true);
       ("data", JObj [("id", jint 5000); ("name", JStr "山田花子");
                      ("email", JStr "hanako@example.com");
                      ("createdAt", JStr "2023-11-14T22:13:20.000Z")]) ] |}.
Proof. reflexivity. Qed.

Example post_users_falsy_name :
  status (@serve reference_jwt initial_store
            (PostUsers (BodyObject [("name", JStr EmptyString); ("email", JStr "a@example.com")]))
            noon) = 400.
Proof. reflexivity. Qed.

Example status_examples :
  status (@serve reference_jwt initial_store (GetStatus "404") noon) = 404 /\
  status (@serve reference_jwt initial_store (GetStatus "abc") noon) = 200 /\
  status (@serve reference_jwt initial_store (GetStatus "0") noon) = 200 /\
  status (@serve reference_jwt initial_store (GetStatus "42") noon) = 500 /\
  timer (@serve reference_jwt initial_store (GetDelay "25000") noon) = Some 10000 /\
  timer (@serve reference_jwt initial_store (GetDelay "soon") noon) = Some 0.
Proof. repeat split; reflexivity. Qed.

Lemma post_users_created_or_rejected_witness :
  status (@serve reference_jwt initial_store (PostUsers hanako) noon) = 201.
Proof.
  destruct (@post_users_created_or_rejected reference_jwt initial_store hanako noon)
    as [H _].
  apply H. split; reflexivity.
Defined.

Lemma login_requires_both_then_checks_password_witness :
  status (@serve reference_jwt initial_store (PostLogin alice) noon) = 200.
Proof.
  destruct (@login_requires_both_then_checks_password reference_jwt initial_store
              reference_sign_nonempty alice noon) as (_ & _ & H).
  apply H; [reflexivity | reflexivity | discriminate].
Defined.

(** The claim C2 fails on a body that has the password ["wrong"] and no
    [username]: the answer is 400, not 401. *)
Lemma login_wrong_password_without_username :
  let b := BodyObject [("password", JStr "wrong")] in
  let r := @serve reference_jwt initial_store (PostLogin b) noon in
  body_field b "password" = Some (JStr "wrong") /\ status r = 400 /\ status r <> 401.
Proof. cbv zeta. repeat split. discriminate. Qed.

Lemma login_alice :
  @serve reference_jwt initial_store (PostLogin alice) noon =
  {| timer := None; status := 200;
     body := JObj [
       ("success", JBool true);
       ("data", JObj [("token", JStr alice_token); ("expiresIn", jint 3600)]) ] |}.
Proof. rewrite login_handler_cases. reflexivity. Qed.

Lemma me_returns_login_username_until_expiry_witness :
  status (@serve reference_jwt initial_store
            (GetMe (Some ("Bearer " +:+ alice_token)))
            (Env 0 (clock noon + 3599) EmptyString)) = 200.
Proof.
  destruct (@me_returns_login_username_until_expiry reference_jwt initial_store
              reference_verify_fresh alice noon (Env 0 (clock noon + 3599) EmptyString)
              alice_token) as [H _].
  rewrite login_alice in H.
  destruct (H eq_refl eq_refl ltac:(cbn; lia)) as (username & _ & ->).
  reflexivity.
Defined.

(** The claim C3 fails for a token presented an hour after the login
    that issued it: the answer is 401. *)
Lemma me_rejects_token_after_one_hour :
  let issued := @serve reference_jwt initial_store (PostLogin alice) noon in
  let later := Env 0 (clock noon + 3600) EmptyString in
  status issued = 200 /\
  issued_token issued = Some (JStr alice_token) /\
  status (@serve reference_jwt initial_store
            (GetMe (Some ("Bearer " +:+ alice_token))) later) = 401.
Proof.
  cbv zeta. rewrite login_alice. split; [reflexivity | split; [reflexivity |]].
  apply (@me_refuses_expired reference_jwt initial_store reference_verify_expired).
  cbn. lia.
Qed.




Lemma status_echoes_code_witness :
  status (@serve reference_jwt initial_store (GetStatus (show_Z 404)) noon) = 404.
Proof.
  destruct (@status_echoes_code reference_jwt initial_store noon) as [H _].
  apply (H 404). lia.
Defined.

Lemma no_state_across_requests_witness :
  let history :=
    [ (PostUsers hanako, noon);
      (PutUser "1" (BodyObject [("name", JStr "太郎")]), noon);
      (DeleteUser "1", noon) ] in
  snd (@run reference_jwt initial_store history) = initial_store /\
  prop (body (fst (@step reference_jwt
                     (snd (@run reference_jwt initial_store history)) GetUsers noon)))
       "data" = Some (JArr users).
Proof.
  cbv zeta.
  destruct (@no_state_across_requests reference_jwt initial_store
              [ (PostUsers hanako, noon);
                (PutUser "1" (BodyObject [("name", JStr "太郎")]), noon);
                (DeleteUser "1", noon) ] noon) as (Hst & _ & Hu & _).
  split; [exact Hst |]. rewrite Hu. reflexivity.
Defined.

Lemma success_flag_matches_status_witness :
  exists ok : bool,
    prop (body (@serve reference_jwt initial_store Unmatched noon)) "success" =
      Some (JBool ok) /\
    (ok = true <-> status (@serve reference_jwt initial_store Unmatched noon) < 400).
Proof.
  apply (@success_flag_matches_status reference_jwt initial_store Unmatched noon).
  discriminate.
Defined.

(** ** Properties of the login helper *)

Section LoginProperties.

Context {runtime : k6}.

Lemma data_token_member (parsed : json) :
  match data_token parsed with
  | Some token => or_null token
  | None => JNull
  end = or_null (token_member parsed).
Proof.
  unfold data_token, token_member.
  destruct parsed as [| ? | ? | ? | ? | fields]; try reflexivity.
  destruct (prop (JObj fields) "data") as [[| | | | |] |]; reflexivity.
Qed.

Lemma or_null_is_null (v : option json) : or_null v = JNull <-> truthy v = false.
Proof.
  destruct v as [x |]; [| split; reflexivity].
  unfold or_null. destruct (truthy (Some x)) eqn:T; [| split; reflexivity].
  split; [| discriminate]. intros ->. discriminate T.
Qed.

(** What [login] returns. It always returns: either [null] or
    the [data.token] of the parsed body, handed on as it is whenever it is
    truthy (a non-empty string when the server sent a string, but a number,
    [true], an array or an object just as well). It returns [null] exactly
    when the status is not 200, the body is not valid JSON, or the parsed
    body has no truthy [data.token]. *)
Theorem login_returns_token_or_null (baseUrl username password : string) :
  let response := login_request baseUrl username password in
  let result := login baseUrl username password in
  (result = JNull \/
   exists parsed,
     response_status response = 200 /\
     parse_body (response_body response) = Some parsed /\
     token_member parsed = Some result /\ truthy (Some result) = true) /\
  (result = JNull <->
     response_status response <> 200 \/
     parse_body (response_body response) = None \/
     exists parsed,
       parse_body (response_body response) = Some parsed /\
       truthy (token_member parsed) = false) /\
  (forall parsed s,
     response_status response = 200 ->
     parse_body (response_body response) = Some parsed ->
     token_member parsed = Some (JStr s) -> s <> EmptyString -> result = JStr s).
Proof.
  cbv zeta. unfold login.
  destruct (Z.eqb_spec (response_status (login_request baseUrl username password)) 200)
    as [Hs | Hs].
  2: { split; [left; reflexivity |]. split; [| intros; contradiction].
       split; [intros _; left; exact Hs | reflexivity]. }
  destruct (parse_body (response_body (login_request baseUrl username password)))
    as [parsed |].
  2: { split; [left; reflexivity |]. split; [| intros; discriminate].
       split; [intros _; right; left; reflexivity | reflexivity]. }
  rewrite data_token_member. split; [| split].
  - destruct (token_member parsed) as [x |] eqn:Hx; [| left; reflexivity].
    unfold or_null. destruct (truthy (Some x)) eqn:T; [| left; reflexivity].
    right. exists parsed. auto.
  - rewrite or_null_is_null. split.
    + intros T. right. right. exists parsed. auto.
    + intros [H | [H | (p & Hp & T)]]; [contradiction | discriminate |].
      injection Hp as <-. exact T.
  - intros p s _ Hp Ht Hne. injection Hp as <-. rewrite Ht. cbn.
    destruct (String.eqb_spec s EmptyString); [contradiction | reflexivity].
Qed.

End LoginProperties.

(** C10. [login] on a 200 response whose body holds the number 1 as
    [data.token]: it returns that number, which is neither a string nor
    [null], against its own documentation ([@returns {string|null}]). *)
Lemma login_returns_a_number :
  let result := @login numeric_token_runtime "http://localhost:3000" "alice" "secret" in
  result = jint 1 /\ result <> JNull /\ forall s, result <> JStr s.
Proof. cbv zeta. split; [reflexivity |]. split; [discriminate |]. intros s. discriminate. Qed.

Lemma login_returns_token_or_null_witness :
  @login numeric_token_runtime "http://localhost:3000" "alice" "secret" <> JNull.
Proof.
  destruct (@login_returns_token_or_null numeric_token_runtime
              "http://localhost:3000" "alice" "secret") as (_ & [H _] & _).
  intros E. destruct (H E) as [Hs | [Hp | (parsed & Hp & T)]].
  - apply Hs. reflexivity.
  - discriminate Hp.
  - injection Hp as <-. discriminate T.
Defined.

(** ** Further properties of the handlers *)

Lemma prefix_split (p s : string) :
  String.prefix p s = true -> s = p +:+ string_drop (String.length p) s.
Proof.
  revert s. induction p as [| a p IH]; intros s H; [reflexivity |].
  destruct s as [| b s]; [discriminate |].
  cbn in H. destruct (ascii_dec a b) as [-> | ?]; [| discriminate].
  change (String b s = String b (p +:+ string_drop (String.length p) s)).
  f_equal. apply IH, H.
Qed.

Section ServerMore.

Context {jwt : jsonwebtoken}.
Variable st : store.

(** GET /api/users/:id reads the id back and never refuses one: for
    every safe integer [n] (at most 2^53 - 1 in magnitude), the path
    [/api/users/n] is answered 200 with [data.id] equal to [n] and the
    name and address made from [n]; a parameter that is not a number is
    answered 200 too, with the [id] [null] and a name made from the text
    [NaN]. *)
Theorem get_user_reads_id_back (e : env) :
  (forall n : Z, Z.abs n <= MAX_SAFE_INTEGER ->
     serve st (GetUser (show_Z n)) e =
     {| timer := None; status := 200;
        body := JObj [
          ("success", JBool true);
          ("data", JObj [
             ("id", jint n);
             ("name", JStr ("ユーザー" +:+ show_Z n));
             ("email", JStr ("user" +:+ show_Z n +:+ "@example.com"));
             ("createdAt", JStr (timestamp e)) ]) ] |}) /\
  (forall id : string, parseInt id = None ->
     serve st (GetUser id) e =
     {| timer := None; status := 200;
        body := JObj [
          ("success", JBool true);
          ("data", JObj [
             ("id", JNull);
             ("name", JStr "ユーザーNaN");
             ("email", JStr "userNaN@example.com");
             ("createdAt", JStr (timestamp e)) ]) ] |}).
Proof.
  split.
  - intros n _. unfold serve, handle, get_user. rewrite parseInt_show_Z. reflexivity.
  - intros id H. unfold serve, handle, get_user. rewrite H. reflexivity.
Qed.

(** PUT /api/users/:id always answers 200; each of [name] and [email] is
    echoed when it was submitted non-empty (truthy) and replaced by the
    value made from the id otherwise, so an update cannot blank a field. *)
Theorem put_user_echoes_or_defaults (id : string) (b : reqbody) (e : env) :
  let r := serve st (PutUser id b) e in
  let userId := parseInt id in
  status r = 200 /\
  exists data,
    prop (body r) "data" = Some data /\
    prop data "id" = Some (jnumber userId) /\
    (forall v, body_field b "name" = Some v -> truthy (Some v) = true ->
       prop data "name" = Some v) /\
    (truthy (body_field b "name") = false ->
       prop data "name" = Some (JStr ("ユーザー" +:+ show_num userId))) /\
    (forall v, body_field b "email" = Some v -> truthy (Some v) = true ->
       prop data "email" = Some v) /\
    (truthy (body_field b "email") = false ->
       prop data "email" = Some (JStr ("user" +:+ show_num userId +:+ "@example.com"))).
Proof.
  cbv zeta. unfold serve, handle, put_user. split; [reflexivity |].
  eexists. split; [reflexivity |]. cbn [prop lookup_field String.eqb Ascii.eqb Bool.eqb].
  split; [reflexivity |]. unfold or_string. repeat split.
  - intros v -> T. rewrite T. reflexivity.
  - intros T. destruct (body_field b "name"); [rewrite T |]; reflexivity.
  - intros v -> T. rewrite T. reflexivity.
  - intros T. destruct (body_field b "email"); [rewrite T |]; reflexivity.
Qed.

(** GET /api/random-delay waits between 100 and 1999 milliseconds, and
    reports in [data.delay] the delay it waited. *)
Theorem random_delay_range (e : env) :
  (0 <= random e)%Q -> (random e < 1)%Q ->
  let r := serve st GetRandomDelay e in
  exists delay : Z,
    100 <= delay <= 1999 /\
    timer r = Some delay /\
    status r = 200 /\
    exists data, prop (body r) "data" = Some data /\
                 prop data "delay" = Some (jint delay).
Proof.
  intros H0 H1. cbv zeta. unfold serve, handle, random_delay.
  pose proof (random_below_range e 1900 H0 H1 ltac:(lia)).
  exists (random_below e 1900 + 100). split; [lia |]. repeat split.
  eexists. split; reflexivity.
Qed.

(** The [id] POST /api/users gives a new user is an integer between 0
    and 9999. *)
Theorem post_users_id_range (b : reqbody) (e : env) :
  (0 <= random e)%Q -> (random e < 1)%Q ->
  truthy (body_field b "name") = true -> truthy (body_field b "email") = true ->
  exists (id : Z) data,
    0 <= id <= 9999 /\
    prop (body (serve st (PostUsers b) e)) "data" = Some data /\
    prop data "id" = Some (jint id).
Proof.
  intros H0 H1 Hn He.
  unfold serve, handle, post_users. rewrite Hn, He. cbn [negb orb].
  destruct (truthy_is_some _ Hn) as [n ->], (truthy_is_some _ He) as [m ->].
  pose proof (random_below_range e 10000 H0 H1 ltac:(lia)).
  exists (random_below e 10000). eexists. split; [lia |]. split; reflexivity.
Qed.

(** POST /api/upload stores nothing and reads nothing of the request: it
    answers 200 with the fixed file name and a drawn [size] between 0 and
    999999. *)
Theorem upload_reports_drawn_size (e : env) :
  (0 <= random e)%Q -> (random e < 1)%Q ->
  let r := serve st PostUpload e in
  status r = 200 /\
  exists (size : Z) data,
    0 <= size <= 999999 /\
    prop (body r) "data" = Some data /\
    prop data "filename" = Some (JStr "uploaded-file.txt") /\
    prop data "size" = Some (jint size).
Proof.
  intros H0 H1. cbv zeta. unfold serve, handle, upload. split; [reflexivity |].
  pose proof (random_below_range e 1000000 H0 H1 ltac:(lia)).
  exists (random_below e 1000000). eexists. split; [lia |]. repeat split.
Qed.

(** The [message] of GET /api/status/:code is [Unknown Status] exactly
    for the codes outside the table of eight, and [statusCode] repeats
    the code. *)
Theorem status_message_unknown (c : Z) (e : env) :
  100 <= c <= 999 ->
  let r := serve st (GetStatus (show_Z c)) e in
  prop (body r) "statusCode" = Some (jint c) /\
  (prop (body r) "message" = Some (JStr "Unknown Status") <->
   ~ In c [200; 400; 401; 403; 404; 500; 502; 503]).
Proof.
  intros Hc. cbv zeta. unfold serve, handle. rewrite status_handler_number by exact Hc.
  cbn [reply body prop lookup_field String.eqb Ascii.eqb Bool.eqb].
  split; [reflexivity |].
  unfold message_for, messages. cbn [List.find In].
  repeat (match goal with
          | |- context [?x =? c] => destruct (Z.eqb_spec x c) as [<- | ?]
          end;
          [split; [discriminate | intros Hn; exfalso; apply Hn; tauto] |]).
  split; [intros _; intros H; repeat (destruct H as [H | H]; [congruence |]); exact H |
          reflexivity].
Qed.

(** The status GET /api/status/:code answers with, for every integer
    code given in decimal: the code itself from 100 to 999, 200 for the
    code 0 (which cannot be asked for), and 500 for any other code, which
    cannot be sent and ends in the error handler. *)
Theorem status_by_code (c : Z) (e : env) :
  status (serve st (GetStatus (show_Z c)) e) =
  if c =? 0 then 200
  else if (100 <=? c) && (c <=? 999) then c
  else 500.
Proof.
  unfold serve, handle, status_handler. rewrite parseInt_show_Z. cbn [num_or].
  destruct (Z.eqb_spec c 0); [reflexivity |].
  unfold reply_checked. destruct ((100 <=? c) && (c <=? 999)); reflexivity.
Qed.

(** Without a usable [size], GET /api/large-payload sends 100 items: when
    the parameter is absent, and when it is not a number. *)
Theorem large_payload_default_size (size : option string) (e : env) :
  size = None \/ (exists s, size = Some s /\ parseInt s = None) ->
  let r := serve st (GetLargePayload size) e in
  status r = 200 /\
  prop (body r) "count" = Some (jint 100) /\
  exists items, prop (body r) "data" = Some (JArr items) /\ List.length items = 100%nat.
Proof.
  intros H. cbv zeta.
  assert (Hp : parseInt_opt size = None).
  { destruct H as [-> | (s & -> & Hs)]; [reflexivity | exact Hs]. }
  unfold serve, handle, large_payload. rewrite Hp. cbn [num_or].
  match goal with |- context [Array_from_length 100 ?f] =>
    destruct (Array_from_length_ok 100 f ltac:(lia)) as (items & -> & Hlen & _)
  end.
  cbn. rewrite Hlen. repeat split. exists items. split; [reflexivity | lia].
Qed.

(** A negative [size] is not replaced by the default: the answer is 200
    with no item at all and [count] 0. *)
Theorem large_payload_negative_size (n : Z) (e : env) :
  n < 0 ->
  serve st (GetLargePayload (Some (show_Z n))) e =
  {| timer := None; status := 200;
     body := JObj [("success", JBool true); ("count", jint 0); ("data", JArr [])] |}.
Proof.
  intros Hn. unfold serve, handle, large_payload, parseInt_opt.
  rewrite parseInt_show_Z. cbn [num_or].
  destruct (Z.eqb_spec n 0); [lia |].
  unfold Array_from_length. destruct (Z.ltb_spec 4294967295 n); [lia |].
  destruct n; try lia. reflexivity.
Qed.

(** GET /api/auth/me answers 200 only to a header [Bearer <token>] whose
    token [jwt.verify] accepts under the server's secret at that time. *)
Theorem me_ok_only_if_verified (authorization : option string) (e : env) :
  status (serve st (GetMe authorization) e) = 200 ->
  exists token decoded,
    authorization = Some ("Bearer " +:+ token) /\
    jwt_verify token (JWT_SECRET st) (clock e) = Some decoded.
Proof.
  unfold serve, handle, me_handler.
  destruct authorization as [h |]; [| discriminate].
  destruct (String.eqb h EmptyString); [discriminate |].
  destruct (String.prefix "Bearer " h) eqn:Hp; [| discriminate].
  cbn [negb orb].
  destruct (jwt_verify (string_drop 7 h) (JWT_SECRET st) (clock e)) as [decoded |] eqn:Hv;
    [| discriminate].
  intros _. exists (string_drop 7 h), decoded. split; [| exact Hv].
  f_equal. apply (prefix_split "Bearer " h Hp).
Qed.

(** Apart from /health and /api/status, a response carries an [error]
    text exactly when its status is 400 or more, and then it has no
    [data]. *)
Theorem error_text_iff_failure (rq : request) (e : env) :
  rq <> GetHealth -> (forall code, rq <> GetStatus code) ->
  let r := serve st rq e in
  ((exists msg, prop (body r) "error" = Some (JStr msg)) <-> 400 <= status r) /\
  (400 <= status r -> prop (body r) "data" = None).
Proof.
  intros Hh Hs. cbv zeta.
  assert (H : (exists msg, body (serve st rq e) =
                 JObj [("success", JBool false); ("error", JStr msg)]
                 /\ 400 <= status (serve st rq e)) \/
              (prop (body (serve st rq e)) "error" = None /\ status (serve st rq e) < 400)).
  { destruct rq as [| | id | b | id b | id | b | authorization | ms | | code | | size | | |];
      try contradiction; unfold serve, handle;
      try (right; split; [reflexivity | cbn; lia]);
      try (left; eexists; split; [reflexivity | cbn; lia]).
    - unfold post_users.
      destruct (negb (truthy (body_field b "name"))
                || negb (truthy (body_field b "email")));
        [left; eexists; split; [reflexivity | cbn; lia] |].
      right. destruct (body_field b "name"), (body_field b "email");
        split; try reflexivity; cbn; lia.
    - unfold login_handler.
      destruct (negb (truthy (body_field b "username"))
                || negb (truthy (body_field b "password")));
        [left; eexists; split; [reflexivity | cbn; lia] |].
      destruct (is_wrong (body_field b "password"));
        [left; eexists; split; [reflexivity | cbn; lia] |].
      right. split; [reflexivity | cbn; lia].
    - unfold me_handler. destruct authorization as [h |];
        [| left; eexists; split; [reflexivity | cbn; lia]].
      destruct (String.eqb h EmptyString || negb (String.prefix "Bearer " h));
        [left; eexists; split; [reflexivity | cbn; lia] |].
      destruct (jwt_verify _ _ _);
        [| left; eexists; split; [reflexivity | cbn; lia]].
      right. split; [reflexivity | cbn; lia].
    - exfalso. apply (Hs code). reflexivity.
    - unfold random_error.
      destruct (negb (Qle_bool (2 # 10) (random e)));
        [left; eexists; split; [reflexivity | cbn; lia] |].
      right. split; [reflexivity | cbn; lia].
    - unfold large_payload.
      destruct (Array_from_length _ _);
        [| left; eexists; split; [reflexivity | cbn; lia]].
      right. split; [reflexivity | cbn; lia]. }
  destruct H as [(msg & Hb & Hst) | (Hn & Hst)].
  - rewrite Hb. split; [split; [intros _; exact Hst | intros _; exists msg; reflexivity] |].
    intros _. reflexivity.
  - rewrite Hn. split; [split; [intros (msg & Hm); discriminate | lia] | lia].
Qed.

End ServerMore.

(** ** Objects built with a spread *)

Lemma lookup_field_get_member (k : string) (l : list (string * json)) :
  lookup_field k l = get_member k l.
Proof. induction l as [| [k' v] l IH]; cbn; [| rewrite IH]; reflexivity. Qed.

Lemma get_member_absent {A : Type} (k : string) (l : list (string * A)) :
  ~ In k (List.map fst l) -> get_member k l = None.
Proof.
  induction l as [| [k' v] l IH]; cbn; [reflexivity |]. intros H.
  destruct (String.eqb_spec k k') as [-> | ?]; [exfalso; apply H; left; reflexivity |].
  apply IH. intros Hin. apply H. right. exact Hin.
Qed.

Lemma get_member_set_member {A : Type} (k k' : string) (v : A) (l : list (string * A)) :
  get_member k' (set_member k v l) =
  if String.eqb k' k then Some v else get_member k' l.
Proof.
  induction l as [| [k0 v0] l IH]; cbn.
  - destruct (String.eqb k' k); reflexivity.
  - destruct (String.eqb_spec k k0) as [-> | Hne]; cbn.
    + destruct (String.eqb k' k0); reflexivity.
    + rewrite IH. destruct (String.eqb_spec k' k0) as [-> | ?]; [| reflexivity].
      destruct (String.eqb_spec k0 k); [congruence | reflexivity].
Qed.

(** Reading a member of [{ ...base, ...extra }]: [extra] wins. *)
Lemma get_member_spread {A : Type} (k : string) (extra : list (string * A)) :
  List.NoDup (List.map fst extra) ->
  forall base,
    get_member k (spread base extra) =
    match get_member k extra with
    | Some v => Some v
    | None => get_member k base
    end.
Proof.
  unfold spread. induction extra as [| [k1 v1] rest IH]; intros Hnd base; [reflexivity |].
  inversion Hnd as [| ? ? Hnotin Hrest]; subst.
  cbn [fold_left fst snd get_member]. rewrite (IH Hrest), get_member_set_member.
  destruct (String.eqb_spec k k1) as [-> | ?]; [| reflexivity].
  rewrite (get_member_absent k1 rest Hnotin). reflexivity.
Qed.

(** The members keep their number: a spread only adds the new keys. *)
Lemma set_member_keeps {A : Type} (k k' : string) (v : A) (l : list (string * A)) :
  In k' (List.map fst l) -> In k' (List.map fst (set_member k v l)).
Proof.
  induction l as [| [k0 v0] l IH]; cbn; [tauto |].
  destruct (String.eqb_spec k k0) as [-> | ?]; cbn; intuition.
Qed.

(** ** Header values in transit *)

Lemma visible_not_blank (c : ascii) : visible c = true -> is_blank c = false.
Proof.
  destruct c as [[] [] [] [] [] [] [] []]; vm_compute; intros H;
    (reflexivity || discriminate H).
Qed.

Lemma strip_trailing_visible (s : string) :
  s <> EmptyString -> all_visible s = true -> strip_trailing s = s.
Proof.
  induction s as [| c rest IH]; [congruence |]. intros _ H.
  cbn [all_visible] in H. apply andb_prop in H as [Hc Hrest].
  cbn [strip_trailing]. destruct rest as [| c' rest'].
  - cbn [strip_trailing]. rewrite (visible_not_blank c Hc). reflexivity.
  - rewrite IH by (congruence || exact Hrest). reflexivity.
Qed.

Lemma strip_trailing_after (p s : string) :
  s <> EmptyString -> strip_trailing s = s -> strip_trailing (p +:+ s) = p +:+ s.
Proof.
  intros Hne Hs. induction p as [| c p IH]; [exact Hs |].
  change (String c p +:+ s) with (String c (p +:+ s)).
  cbn [strip_trailing]. rewrite IH.
  destruct (p +:+ s) eqn:E; [| reflexivity].
  exfalso. destruct p as [| c' p']; [exact (Hne E) |].
  change (String c' (p' +:+ s) = EmptyString) in E. discriminate E.
Qed.

(** The header [getAuthHeaders] builds for a header-safe token arrives
    as it was sent. *)
Lemma header_value_bearer (token : string) :
  header_safe token -> header_value ("Bearer " +:+ token) = "Bearer " +:+ token.
Proof.
  intros [Hne Hv]. unfold header_value.
  change (strip_leading ("Bearer " +:+ token)) with ("Bearer " +:+ token).
  apply strip_trailing_after; [exact Hne | apply strip_trailing_visible; assumption].
Qed.

Lemma all_visible_bits (p : positive) : all_visible (bits_of_pos p) = true.
Proof. induction p as [p IH | p IH |]; cbn; [exact IH | exact IH | reflexivity]. Qed.

Lemma reference_sign_header_safe : sign_header_safe reference_jwt.
Proof.
  intros payload secret ttl now. cbn [jwt_sign reference_jwt]. unfold reference_sign.
  split.
  - match goal with |- "jwt." +:+ ?b <> _ =>
      change (String "j" ("wt." +:+ b) <> EmptyString) end.
    discriminate.
  - match goal with |- all_visible ("jwt." +:+ ?b) = _ =>
      change (all_visible b = true) end.
    apply all_visible_bits.
Qed.

(** ** Properties of utils/auth.js and utils/config.js *)

Section Scripts.

Context {jwt : jsonwebtoken}.
Variable st : store.

(** [getAuthHeaders] and GET /api/auth/me agree on the header for the
    tokens a header carries unchanged: for every non-empty token of
    printable characters (a JWT is one), the server takes from the
    [Authorization] header that [getAuthHeaders] builds exactly that
    token, and answers by what [jwt.verify] says of it. For the empty
    token the blank after [Bearer] is lost on the way, and the server
    answers that a token is required. *)
Theorem auth_header_carries_token (token : string) (e : env) :
  (header_safe token ->
   serve st (GetMe (authorization_of (getAuthHeaders token))) e =
   match jwt_verify token (JWT_SECRET st) (clock e) with
   | Some decoded =>
       {| timer := None; status := 200;
          body := JObj [
            ("success", JBool true);
            ("data", JObj (members [
               ("userId", prop decoded "userId");
               ("username", prop decoded "username") ])) ] |}
   | None =>
       {| timer := None; status := 401;
          body := JObj [("success", JBool false); ("error", JStr "トークンが無効です")] |}
   end) /\
  serve st (GetMe (authorization_of (getAuthHeaders EmptyString))) e =
  {| timer := None; status := 401;
     body := JObj [("success", JBool false); ("error", JStr "認証トークンが必要です")] |}.
Proof.
  split; [| reflexivity]. intros Hsafe.
  change (authorization_of (getAuthHeaders token))
    with (Some (header_value ("Bearer " +:+ token))).
  rewrite (header_value_bearer token Hsafe).
  unfold serve, handle. rewrite me_handler_bearer.
  destruct (jwt_verify token (JWT_SECRET st) (clock e)); reflexivity.
Qed.

(** What GET /api/auth/me answers to a token the login handler issued
    for a username, before the token expires. *)
Lemma me_after_login (Hfresh : verify_fresh jwt) (username : json) (e e' : env) :
  clock e' < clock e + 3600 ->
  serve st (GetMe (Some ("Bearer " +:+
    jwt_sign [("userId", jint (random_below e 1000)); ("username", username)]
             (JWT_SECRET st) 3600 (clock e)))) e' =
  {| timer := None; status := 200;
     body := JObj [
       ("success", JBool true);
       ("data", JObj [("userId", jint (random_below e 1000));
                      ("username", username)]) ] |}.
Proof.
  intros Hc. unfold serve, handle. rewrite me_handler_bearer.
  rewrite Hfresh by (reflexivity || exact Hc). reflexivity.
Qed.

Section Connected.

Context {runtime : k6}.
Variable e : env.
Variable baseUrl : string.
Hypothesis Hsign : sign_nonempty jwt.
Hypothesis Hparse : reads_login_answers runtime st.
Hypothesis Hpost : posts_to_server runtime st e baseUrl.

Lemma login_connected (username password : string) :
  login baseUrl username password =
  if String.eqb username EmptyString || String.eqb password EmptyString
     || String.eqb password "wrong"
  then JNull
  else JStr (jwt_sign
               [("userId", jint (random_below e 1000)); ("username", JStr username)]
               (JWT_SECRET st) 3600 (clock e)).
Proof.
  unfold login, login_request. cbv zeta. rewrite !Hpost by reflexivity. cbv zeta.
  cbn [response_status response_body parse_body]. rewrite Hparse.
  rewrite login_handler_cases. cbv zeta.
  cbn [body_field lookup_field String.eqb Ascii.eqb Bool.eqb truthy is_wrong].
  destruct (String.eqb username EmptyString); [reflexivity |].
  destruct (String.eqb password EmptyString); [reflexivity |].
  cbn [negb andb orb].
  destruct (String.eqb password "wrong"); [reflexivity |].
  cbn [status Z.eqb Pos.eqb body].
  cbn [data_token prop lookup_field String.eqb Ascii.eqb Bool.eqb or_null truthy
       members omap].
  match goal with |- context [String.eqb ?t EmptyString] =>
    destruct (String.eqb_spec t EmptyString) as [E | ?]; [| reflexivity]
  end.
  exfalso. exact (Hsign _ _ _ _ E).
Qed.

(** [login] against the mock server, reached by a request that declares
    its JSON body and read back by [JSON.parse]: it returns [null] when
    the username or the password is empty or the password is [wrong],
    and otherwise the non-empty token the server issued for that
    username. *)
Theorem login_against_server (username password : string) :
  (username = EmptyString \/ password = EmptyString \/ password = "wrong" ->
     login baseUrl username password = JNull) /\
  (username <> EmptyString -> password <> EmptyString -> password <> "wrong" ->
     exists token,
       token <> EmptyString /\
       login baseUrl username password = JStr token /\
       issued_token
         (serve st (PostLogin (BodyObject [("username", JStr username);
                                           ("password", JStr password)])) e)
       = Some (JStr token)).
Proof.
  rewrite login_connected. split.
  - intros [-> | [-> | ->]].
    + reflexivity.
    + destruct (String.eqb username EmptyString); reflexivity.
    + destruct (String.eqb username EmptyString); reflexivity.
  - intros Hu Hp Hw.
    destruct (String.eqb_spec username EmptyString); [contradiction |].
    destruct (String.eqb_spec password EmptyString); [contradiction |].
    destruct (String.eqb_spec password "wrong") as [| Hw']; [contradiction |].
    cbn [orb]. eexists. split; [apply Hsign |]. split; [reflexivity |].
    rewrite login_handler_cases. cbv zeta.
    cbn [body_field lookup_field String.eqb Ascii.eqb Bool.eqb truthy is_wrong].
    destruct (String.eqb_spec username EmptyString); [contradiction |].
    destruct (String.eqb_spec password EmptyString); [contradiction |].
    destruct (String.eqb_spec password "wrong"); [contradiction |].
    reflexivity.
Qed.

(** The whole sign-in of a script, for tokens a header carries
    unchanged: the token [login] returns, sent in the headers
    [getAuthHeaders] builds less than an hour later, is answered 200 by
    GET /api/auth/me with the username that signed in. *)
Theorem login_then_me (Hfresh : verify_fresh jwt) (Hsafe : sign_header_safe jwt)
    (username password : string) (e' : env) :
  username <> EmptyString -> password <> EmptyString -> password <> "wrong" ->
  clock e' < clock e + 3600 ->
  exists token,
    login baseUrl username password = JStr token /\
    let r := serve st (GetMe (authorization_of (getAuthHeaders token))) e' in
    status r = 200 /\
    exists data, prop (body r) "data" = Some data /\
                 prop data "username" = Some (JStr username).
Proof.
  intros Hu Hp Hw Hc. rewrite login_connected.
  destruct (String.eqb_spec username EmptyString); [contradiction |].
  destruct (String.eqb_spec password EmptyString); [contradiction |].
  destruct (String.eqb_spec password "wrong"); [contradiction |].
  cbn [orb]. eexists. split; [reflexivity |]. cbv zeta.
  change (authorization_of (getAuthHeaders ?t))
    with (Some (header_value ("Bearer " +:+ t))).
  rewrite header_value_bearer by apply Hsafe.
  rewrite (me_after_login Hfresh (JStr username) e e' Hc).
  split; [reflexivity |]. eexists. split; reflexivity.
Qed.

End Connected.

(** The checks of the authentication scenario against the server: the
    login check always finds a token in an accepted login, but the check
    on /api/auth/me tests [data.userId] for truth, so it fails exactly
    when the server drew the user id 0. *)
Theorem user_info_check_fails_on_id_zero
    (Hsign : sign_nonempty jwt) (Hfresh : verify_fresh jwt)
    (username password : string) (e e' : env) :
  username <> EmptyString -> password <> EmptyString -> password <> "wrong" ->
  clock e' < clock e + 3600 ->
  let issued :=
    serve st (PostLogin (BodyObject [("username", JStr username);
                                     ("password", JStr password)])) e in
  check_token_received (body issued) = true /\
  exists token,
    issued_token issued = Some (JStr token) /\
    check_user_info_received
      (body (serve st (GetMe (Some ("Bearer " +:+ token))) e'))
    = negb (random_below e 1000 =? 0).
Proof.
  intros Hu Hp Hw Hc. cbv zeta. rewrite login_handler_cases. cbv zeta.
  cbn [body_field lookup_field String.eqb Ascii.eqb Bool.eqb truthy is_wrong].
  destruct (String.eqb_spec username EmptyString); [contradiction |].
  destruct (String.eqb_spec password EmptyString); [contradiction |].
  destruct (String.eqb_spec password "wrong"); [contradiction |].
  cbn [negb andb]. split.
  - unfold check_token_received, both.
    cbn [body prop lookup_field String.eqb Ascii.eqb Bool.eqb truthy].
    match goal with |- negb (String.eqb ?t EmptyString) = true =>
      destruct (String.eqb_spec t EmptyString) as [E | ?]; [| reflexivity]
    end.
    exfalso. exact (Hsign _ _ _ _ E).
  - eexists. split; [reflexivity |].
    change (members [("userId", Some (jint (random_below e 1000)));
                     ("username", Some (JStr username))])
      with [("userId", jint (random_below e 1000)); ("username", JStr username)].
    rewrite (me_after_login Hfresh (JStr username) e e' Hc).
    unfold check_user_info_received, both.
    cbn [body prop lookup_field String.eqb Ascii.eqb Bool.eqb truthy jint inject_Z Qnum].
    reflexivity.
Qed.

End Scripts.

Lemma authenticated_params_members (token : string)
    (params : list (string * json)) (k : string) :
  List.NoDup (List.map fst params) ->
  prop (authenticated_params token (Some params)) k =
  match lookup_field k params with
  | Some v => Some v
  | None => if String.eqb k "headers" then Some (getAuthHeaders token) else None
  end.
Proof.
  intros Hnd. unfold authenticated_params, default_object.
  cbn [prop]. rewrite !lookup_field_get_member, (get_member_spread k params Hnd).
  destruct (get_member k params); [reflexivity |].
  cbn [get_member]. destruct (String.eqb k "headers"); reflexivity.
Qed.

(** [authenticatedGet] and [authenticatedPost] pass on every member of
    [params], and add the headers of [getAuthHeaders] only when [params]
    has no [headers] of its own: a caller that passes its own headers
    sends the request without the [Authorization] header unless it put
    one there. *)
Theorem authenticated_requests_params {runtime : k6}
    (http_get : string -> json -> k6_response)
    (url token : string) (data : json) (params : list (string * json)) :
  List.NoDup (List.map fst params) ->
  exists sent : json,
    authenticatedGet http_get url token (Some params) = http_get url sent /\
    authenticatedPost url data token (Some params) =
      http_post url (JSON_stringify data) sent /\
    (forall k v, lookup_field k params = Some v -> prop sent k = Some v) /\
    (lookup_field "headers" params = None ->
       prop sent "headers" = Some (getAuthHeaders token)) /\
    (forall k, lookup_field k params = None -> k <> "headers" -> prop sent k = None).
Proof.
  intros Hnd. exists (authenticated_params token (Some params)).
  split; [reflexivity |]. split; [reflexivity |]. repeat split.
  - intros k v H. rewrite (authenticated_params_members token params k Hnd), H.
    reflexivity.
  - intros H. rewrite (authenticated_params_members token params "headers" Hnd), H.
    reflexivity.
  - intros k H Hk. rewrite (authenticated_params_members token params k Hnd), H.
    destruct (String.eqb_spec k "headers"); [contradiction | reflexivity].
Qed.

(** With no [params] the request carries exactly the two headers of
    [getAuthHeaders], and the server reads a header-safe token back from
    them. *)
Lemma authenticated_params_default (token : string) :
  authenticated_params token None = JObj [("headers", getAuthHeaders token)] /\
  (header_safe token ->
   authorization_of (getAuthHeaders token) = Some ("Bearer " +:+ token)).
Proof.
  split; [reflexivity |]. intros Hsafe.
  change (authorization_of (getAuthHeaders token))
    with (Some (header_value ("Bearer " +:+ token))).
  rewrite (header_value_bearer token Hsafe). reflexivity.
Qed.

Section ConfigProperties.

Variable Object_prototype_has : string -> bool.

(** [getThresholds] by environment name: the three known names select
    their own thresholds; any other name falls back to the [dev]
    thresholds, unless it names a member of [Object.prototype], which is
    then returned in place of thresholds. An unset or empty ENVIRONMENT is
    [dev]. *)
Theorem getThresholds_by_environment (ENV : k6_env) :
  let name := environment (config ENV) in
  (name = "dev" -> getThresholds Object_prototype_has ENV = Json thresholds_dev) /\
  (name = "staging" ->
     getThresholds Object_prototype_has ENV = Json thresholds_staging) /\
  (name = "production" ->
     getThresholds Object_prototype_has ENV = Json thresholds_production) /\
  (name <> "dev" -> name <> "staging" -> name <> "production" ->
     getThresholds Object_prototype_has ENV =
     if Object_prototype_has name then Builtin name else Json thresholds_dev) /\
  (ENVIRONMENT ENV = None \/ ENVIRONMENT ENV = Some EmptyString -> name = "dev").
Proof.
  cbv zeta. unfold getThresholds, read_member.
  repeat split.
  - intros ->. reflexivity.
  - intros ->. reflexivity.
  - intros ->. reflexivity.
  - intros Hd Hs Hp. unfold thresholds. cbn [lookup_field].
    destruct (String.eqb_spec (environment (config ENV)) "dev"); [contradiction |].
    destruct (String.eqb_spec (environment (config ENV)) "staging"); [contradiction |].
    destruct (String.eqb_spec (environment (config ENV)) "production"); [contradiction |].
    destruct (Object_prototype_has (environment (config ENV))); reflexivity.
  - intros [H | H]; unfold config, environment, env_or; rewrite H; reflexivity.
Qed.

(** The settings never hold a zero: [vus] and [timeout] are the number
    given when it is a non-zero safe integer (at most 2^53 - 1 in
    magnitude), and 10 and 30000 when the variable is unset, is not a
    number, or is 0. *)
Theorem config_numbers_default (ENV : k6_env) :
  vus (config ENV) <> 0 /\ timeout (config ENV) <> 0 /\
  (forall n, n <> 0 -> Z.abs n <= MAX_SAFE_INTEGER ->
     VUS ENV = Some (show_Z n) -> vus (config ENV) = n) /\
  (forall n, n <> 0 -> Z.abs n <= MAX_SAFE_INTEGER ->
     TIMEOUT ENV = Some (show_Z n) -> timeout (config ENV) = n) /\
  (parseInt_opt (VUS ENV) = None \/ parseInt_opt (VUS ENV) = Some 0 ->
     vus (config ENV) = 10) /\
  (parseInt_opt (TIMEOUT ENV) = None \/ parseInt_opt (TIMEOUT ENV) = Some 0 ->
     timeout (config ENV) = 30000).
Proof.
  unfold config, vus, timeout, num_or. repeat split.
  - destruct (parseInt_opt (VUS ENV)) as [z |]; [| discriminate].
    destruct (Z.eqb_spec z 0); [discriminate | assumption].
  - destruct (parseInt_opt (TIMEOUT ENV)) as [z |]; [| discriminate].
    destruct (Z.eqb_spec z 0); [discriminate | assumption].
  - intros n Hn _ ->. cbn [parseInt_opt]. rewrite parseInt_show_Z.
    destruct (Z.eqb_spec n 0); [contradiction | reflexivity].
  - intros n Hn _ ->. cbn [parseInt_opt]. rewrite parseInt_show_Z.
    destruct (Z.eqb_spec n 0); [contradiction | reflexivity].
  - intros [-> | ->]; reflexivity.
  - intros [-> | ->]; reflexivity.
Qed.

(** [buildOptions]: every member of [customOptions] is in the result as
    given, and [vus], [duration] and [thresholds] come from the settings
    only where [customOptions] does not set them. *)
Theorem buildOptions_custom_wins (ENV : k6_env)
    (customOptions : list (string * jsvalue)) (k : string) :
  List.NoDup (List.map fst customOptions) ->
  get_member k (buildOptions Object_prototype_has ENV (Some customOptions)) =
  match get_member k customOptions with
  | Some v => Some v
  | None =>
      if String.eqb k "vus" then Some (Json (jint (vus (config ENV))))
      else if String.eqb k "duration" then Some (Json (JStr (duration (config ENV))))
      else if String.eqb k "thresholds" then Some (getThresholds Object_prototype_has ENV)
      else None
  end.
Proof.
  intros Hnd. unfold buildOptions, default_object.
  rewrite (get_member_spread k customOptions Hnd).
  destruct (get_member k customOptions); reflexivity.
Qed.

End ConfigProperties.

(** ** Properties of utils/data-generator.js *)

Lemma floor_random_range (r : Q) (n : Z) :
  (0 <= r)%Q -> (r < 1)%Q -> 0 < n -> 0 <= floor_random r n < n.
Proof.
  intros H0 H1 Hn. exact (random_below_range (Env r 0 EmptyString) n H0 H1 Hn).
Qed.

(** Every value below [n] is met by a draw of the grid, for a range of
    at most 2^32 values. *)
Lemma floor_random_hits (v n : Z) :
  0 <= v < n -> n <= 4294967296 ->
  exists k : Z, 0 <= k < 4503599627370496 /\ floor_random (draw k) n = v.
Proof.
  intros Hv Hn.
  set (D := 4503599627370496).
  set (k := (v * D + n - 1) / n).
  assert (Hlow : n * k <= v * D + n - 1) by (apply Z.mul_div_le; lia).
  assert (Hhigh : v * D + n - 1 < n * Z.succ k) by (apply Z.mul_succ_div_gt; lia).
  assert (Hk0 : 0 <= k) by (apply Z.div_pos; nia).
  exists k. split.
  - split; [exact Hk0 |]. subst D. nia.
  - unfold floor_random, draw, Qfloor, Qmult, inject_Z. cbn [Qnum Qden].
    rewrite Pos.mul_1_r. fold D.
    symmetry. apply (Z.div_unique_pos (k * n) D v (k * n - v * D)); subst D; nia.
Qed.

(** [randomInt(min, max)] for 32-bit integers [min <= max]: the result
    lies between [min] and [max], both included, and every integer of
    that range is the result of a draw that [Math.random()] can make. *)
Theorem randomInt_range (min max : Z) :
  - 2147483648 <= min -> min <= max -> max <= 2147483647 ->
  (forall r : Q, (0 <= r)%Q -> (r < 1)%Q -> min <= randomInt min max r <= max) /\
  (forall v : Z, min <= v <= max ->
     exists k : Z,
       0 <= k < 4503599627370496 /\ randomInt min max (draw k) = v).
Proof.
  intros Hlo Hm Hhi. unfold randomInt. split.
  - intros r H0 H1.
    pose proof (floor_random_range r (max - min + 1) H0 H1 ltac:(lia)). lia.
  - intros v Hv.
    destruct (floor_random_hits (v - min) (max - min + 1) ltac:(lia) ltac:(lia))
      as (k & Hk & Hr).
    exists k. split; [exact Hk | lia].
Qed.

(** [randomChoice] returns an element of a non-empty array, and
    [undefined] for the empty array. *)
Theorem randomChoice_member {A : Type} (array : list A) (r : Q) :
  (0 <= r)%Q -> (r < 1)%Q ->
  (array <> [] -> exists x, randomChoice array r = Some x /\ In x array) /\
  (array = [] -> randomChoice array r = None).
Proof.
  intros H0 H1. unfold randomChoice, index. split.
  - intros Hne.
    assert (Hlen : 0 < Z.of_nat (List.length array))
      by (destruct array; [contradiction | cbn; lia]).
    pose proof (floor_random_range r _ H0 H1 Hlen) as Hi.
    destruct (Z.ltb_spec (floor_random r (Z.of_nat (List.length array))) 0); [lia |].
    destruct (nth_error array (Z.to_nat (floor_random r (Z.of_nat (List.length array)))))
      as [x |] eqn:Hx.
    + exists x. split; [reflexivity |]. eapply nth_error_In, Hx.
    + apply nth_error_None in Hx. lia.
  - intros ->. destruct (_ <? 0); [reflexivity |].
    destruct (Z.to_nat _); reflexivity.
Qed.

Lemma get_in_range (s : string) (i : nat) :
  (i < String.length s)%nat -> exists c, String.get i s = Some c.
Proof.
  revert i. induction s as [| a s IH]; intros i Hi; cbn in Hi; [lia |].
  destruct i as [| i]; cbn; [eauto |]. apply IH. lia.
Qed.

Lemma charAt_chars (pos : Z) :
  0 <= pos < 62 ->
  exists c, charAt chars pos = String c EmptyString /\
            String.get (Z.to_nat pos) chars = Some c.
Proof.
  intros Hp. unfold charAt. destruct (Z.ltb_spec pos 0); [lia |].
  destruct (get_in_range chars (Z.to_nat pos)) as [c Hc].
  - change (String.length chars) with 62%nat. lia.
  - rewrite Hc. eauto.
Qed.

Lemma length_append (s t : string) :
  String.length (s +:+ t) = (String.length s + String.length t)%nat.
Proof.
  induction s as [| a s IH]; [reflexivity |].
  change (S (String.length (s +:+ t)) = S (String.length s + String.length t)).
  f_equal. exact IH.
Qed.

Lemma get_append (s t : string) (i : nat) (c : ascii) :
  String.get i (s +:+ t) = Some c ->
  String.get i s = Some c \/ exists j, String.get j t = Some c.
Proof.
  revert i. induction s as [| a s IH]; intros i H; [right; exists i; exact H |].
  change (String.get i (String a (s +:+ t)) = Some c) in H.
  destruct i as [| i]; [left; exact H |]. cbn in H |- *. apply IH, H.
Qed.

Section RandomStringProperties.

Variable draws : nat -> Q.
Hypothesis draws_in_range : forall i, (0 <= draws i)%Q /\ (draws i < 1)%Q.

Lemma append_random_chars_spec (remaining : nat) :
  forall i result,
    String.length (append_random_chars draws remaining i result) =
      (String.length result + remaining)%nat /\
    (drawn_from chars result ->
     drawn_from chars (append_random_chars draws remaining i result)).
Proof.
  induction remaining as [| remaining IH]; intros i result; cbn [append_random_chars].
  - split; [lia | tauto].
  - destruct (draws_in_range i) as [H0 H1].
    destruct (charAt_chars (floor_random (draws i) (Z.of_nat (String.length chars))))
      as (c & Hc & Hget).
    { change (Z.of_nat (String.length chars)) with 62.
      apply floor_random_range; [exact H0 | exact H1 | lia]. }
    rewrite Hc. destruct (IH (S i) (result +:+ String c EmptyString)) as [Hlen Hall].
    split.
    + rewrite Hlen, length_append. cbn. lia.
    + intros Hres. apply Hall. intros j a Ha.
      apply get_append in Ha. destruct Ha as [Ha | (k & Hk)]; [eauto |].
      destruct k as [| k]; cbn in Hk; [| destruct k; discriminate].
      injection Hk as <-. eauto.
Qed.

(** [generateRandomString(length)] has exactly [length] characters, each
    of them a letter or a digit of [chars]; a length of 0 or less gives
    the empty string, and no length gives 10 characters. *)
Theorem generateRandomString_length (length : Z) :
  String.length (generateRandomString draws (Some length)) = Z.to_nat length /\
  drawn_from chars (generateRandomString draws (Some length)) /\
  (length <= 0 -> generateRandomString draws (Some length) = EmptyString) /\
  String.length (generateRandomString draws None) = 10%nat.
Proof.
  unfold generateRandomString.
  destruct (append_random_chars_spec (Z.to_nat length) O EmptyString) as [Hlen Hall].
  repeat split.
  - exact Hlen.
  - apply Hall. intros i c H. destruct i; discriminate H.
  - intros Hn. replace (Z.to_nat length) with O by lia. reflexivity.
  - apply (append_random_chars_spec (Z.to_nat 10) O EmptyString).
Qed.

(** [generateFileContent(sizeInKB)] of the upload scenario is
    [1024 * sizeInKB] characters long, all letters or digits. *)
Theorem generateFileContent_size (sizeInKB : Z) :
  0 <= sizeInKB ->
  Z.of_nat (String.length (generateFileContent draws sizeInKB)) = 1024 * sizeInKB /\
  drawn_from chars (generateFileContent draws sizeInKB).
Proof.
  intros Hs. unfold generateFileContent.
  destruct (append_random_chars_spec (Z.to_nat (sizeInKB * 1024)) O EmptyString)
    as [Hlen Hall].
  split.
  - rewrite Hlen. cbn. lia.
  - apply Hall. intros i c H. destruct i; discriminate H.
Qed.

End RandomStringProperties.

Lemma append_inv_head (p a b : string) : p +:+ a = p +:+ b -> a = b.
Proof.
  induction p as [| c p IH]; intros H; [exact H |].
  change (String c (p +:+ a) = String c (p +:+ b)) in H.
  injection H as H. apply IH, H.
Qed.

(** Two texts cut at the first occurrence of a separator are equal part
    by part. *)
Lemma split_at_separator (c : ascii) (s s' r r' : string) :
  free_of c s -> free_of c s' ->
  s +:+ String c r = s' +:+ String c r' -> s = s' /\ r = r'.
Proof.
  revert s'. induction s as [| a s IH]; intros [| a' s'] Hs Hs' H.
  - injection H as ->. split; reflexivity.
  - change (String c r = String a' (s' +:+ String c r')) in H.
    injection H as E _. destruct Hs' as [Hne _]. congruence.
  - change (String a (s +:+ String c r) = String c r') in H.
    injection H as E _. destruct Hs as [Hne _]. congruence.
  - change (String a (s +:+ String c r) = String a' (s' +:+ String c r')) in H.
    injection H as -> H. destruct Hs as [_ Hs], Hs' as [_ Hs'].
    destruct (IH s' Hs Hs' H) as [-> ->]. split; reflexivity.
Qed.

Lemma digits_fuel_free (c : ascii) (fuel : nat) :
  (forall d, 0 <= d < 10 -> digit_char d <> c) ->
  forall n acc, free_of c acc -> free_of c (digits_fuel fuel n acc).
Proof.
  intros Hc. induction fuel as [| fuel IH]; intros n acc Hacc; [exact Hacc |].
  cbn [digits_fuel].
  assert (Hm : 0 <= n mod 10 < 10) by (apply Z.mod_pos_bound; lia).
  assert (Hacc' : free_of c (String (digit_char (n mod 10)) acc))
    by (split; [apply Hc, Hm | exact Hacc]).
  destruct (n / 10 =? 0); [exact Hacc' | apply IH, Hacc'].
Qed.

Lemma show_Z_free (c : ascii) (n : Z) :
  (forall d, 0 <= d < 10 -> digit_char d <> c) -> c <> "-"%char ->
  free_of c (show_Z n).
Proof.
  intros Hc Hm. unfold show_Z, digits.
  destruct (n <? 0); [split; [congruence |] |]; apply digits_fuel_free; cbn; auto.
Qed.

Lemma show_Z_inj (a b : Z) : show_Z a = show_Z b -> a = b.
Proof.
  intros H. pose proof (parseInt_show_Z a) as Ha. rewrite H, parseInt_show_Z in Ha.
  congruence.
Qed.

Lemma digit_char_not_underscore (d : Z) : 0 <= d < 10 -> digit_char d <> "_"%char.
Proof. intros H. pattern d. apply digit_cases; [exact H | ..]; discriminate. Qed.

Lemma digit_char_not_at (d : Z) : 0 <= d < 10 -> digit_char d <> "@"%char.
Proof. intros H. pattern d. apply digit_cases; [exact H | ..]; discriminate. Qed.

(** Two addresses made by [generateEmail] with the same prefix are equal
    only if they were made in the same millisecond with the same drawn
    id; and [generateUser] gives its user the address
    [generateEmail('user')] would give at that moment. *)
Theorem generateEmail_collides_only_on_same_draw
    (prefix : option string) (now now' : Z) (r r' : Q) :
  (generateEmail prefix now r = generateEmail prefix now' r' ->
     now = now' /\ floor_random r 10000 = floor_random r' 10000) /\
  prop (generateUser now r) "email" = Some (JStr (generateEmail (Some "user") now r)).
Proof.
  split; [| reflexivity].
  unfold generateEmail. cbv zeta. intros H.
  apply append_inv_head in H.
  change (String "_" ?x = String "_" ?y) with (String "_" x = String "_" y) in H.
  unfold String.append in H at 1 4. fold String.append in H.
  injection H as H.
  apply split_at_separator in H;
    [| apply show_Z_free; [apply digit_char_not_underscore | discriminate] ..].
  destruct H as [Hnow H]. apply show_Z_inj in Hnow.
  change ("@example.com") with (String "@" "example.com") in H.
  apply split_at_separator in H;
    [| apply show_Z_free; [apply digit_char_not_at | discriminate] ..].
  destruct H as [Hid _]. apply show_Z_inj in Hid. split; assumption.
Qed.

Section GeneratedUsers.

Context {jwt : jsonwebtoken}.

(** Every user [generateUser] makes is accepted by POST /api/users: the
    answer is 201 and repeats the generated name and address. *)
Theorem generated_user_is_created (st : store) (now : Z) (r : Q) (e : env) :
  exists fields name email,
    generateUser now r = JObj fields /\
    lookup_field "name" fields = Some (JStr name) /\
    lookup_field "email" fields = Some (JStr email) /\
    let answer := serve st (PostUsers (BodyObject fields)) e in
    status answer = 201 /\
    exists data,
      prop (body answer) "data" = Some data /\
      prop data "name" = Some (JStr name) /\
      prop data "email" = Some (JStr email).
Proof.
  unfold generateUser. cbv zeta. eexists. eexists. eexists.
  split; [reflexivity |]. split; [reflexivity |]. split; [reflexivity |].
  cbv zeta. unfold serve, handle, post_users.
  cbn [body_field lookup_field String.eqb Ascii.eqb Bool.eqb truthy].
  change (String.eqb ("User_" +:+ ?x) EmptyString) with false.
  change (String.eqb ("user_" +:+ ?x) EmptyString) with false.
  cbn [negb orb]. split; [reflexivity |]. eexists. repeat split.
Qed.

End GeneratedUsers.

Section DummyPayload.

Context {runtime : k6}.
Variable draws : nat -> Q.
Variable timestamps : nat -> string.

(** The serialisation of an array is at least as long as the array has
    items. *)
Hypothesis stringify_grows :
  forall items : list json,
    (List.length items <= String.length (JSON_stringify (JArr items)))%nat.

Lemma fill_items_spec (targetSize : Z) (dummyString : string) (fuel : nat) :
  forall items currentSize,
    Z.of_nat (List.length items) <= currentSize ->
    Z.max 0 (targetSize - Z.of_nat (List.length items)) < Z.of_nat fuel ->
    exists final,
      fill_items timestamps fuel targetSize dummyString items currentSize = Some final /\
      Z.of_nat (List.length final) <= Z.max (Z.of_nat (List.length items)) targetSize /\
      ((targetSize <= currentSize /\ final = items) \/
       (currentSize < targetSize /\
        targetSize <= Z.of_nat (String.length (JSON_stringify (JArr final))) /\
        (List.length items < List.length final)%nat)).
Proof.
  induction fuel as [| fuel IH]; intros items currentSize Hinv Hfuel; [lia |].
  cbn [fill_items]. destruct (Z.ltb_spec currentSize targetSize) as [Hlt | Hge].
  - set (items' := (items ++ [dummy_item timestamps dummyString items])%list).
    assert (Hlen : List.length items' = S (List.length items))
      by (subst items'; rewrite length_app; cbn; lia).
    pose proof (stringify_grows items') as Hgrow.
    destruct (IH items' (Z.of_nat (String.length (JSON_stringify (JArr items')))))
      as (final & Hrun & Hbound & Hcases); [lia | lia |].
    exists final. split; [exact Hrun |]. split; [lia |]. right.
    split; [exact Hlt |].
    destruct Hcases as [[Hdone ->] | (_ & Hsize & Hmore)]; split; lia.
  - exists items. split; [reflexivity |]. split; [lia |]. left. split; [lia | reflexivity].
Qed.

(** [generateDummyPayload(sizeInKB)] always finishes; for a size of 0 or
    less it returns no item, and otherwise it returns at least one item,
    at most [1024 * sizeInKB] of them, and enough of them for their
    serialisation to reach [1024 * sizeInKB] characters. *)
Theorem generateDummyPayload_reaches_size (sizeInKB : Z) :
  exists items,
    generateDummyPayload draws timestamps (Some sizeInKB) =
      Some (JObj [("items", JArr items)]) /\
    (sizeInKB <= 0 -> items = []) /\
    (0 < sizeInKB ->
       items <> [] /\
       Z.of_nat (List.length items) <= 1024 * sizeInKB /\
       1024 * sizeInKB <= Z.of_nat (String.length (JSON_stringify (JArr items)))).
Proof.
  unfold generateDummyPayload. cbv zeta.
  destruct (fill_items_spec (sizeInKB * 1024) (generateRandomString draws (Some 100))
              (S (Z.to_nat (sizeInKB * 1024))) [] 0)
    as (final & -> & Hbound & Hcases); [cbn; lia | cbn [List.length]; lia |].
  exists final. split; [reflexivity |]. cbn [List.length] in *. split.
  - intros Hs. destruct Hcases as [[_ ->] | (Hlt & _)]; [reflexivity | lia].
  - intros Hs. destruct Hcases as [[Hdone _] | (_ & Hsize & Hmore)]; [lia |].
    repeat split; [intros -> ; cbn in Hmore; lia | lia | lia].
Qed.

End DummyPayload.

(** ** The further properties on concrete inputs *)

Lemma wire_parses_back (v : json) : wire_parse (wire_stringify v) = Some v.
Proof.
  unfold wire_parse, wire_stringify. rewrite pos_of_bits_of_pos. apply decode_encode.
Qed.

Lemma connected_reads_login_answers (st : store) (e : env) :
  @reads_login_answers reference_jwt (connected_runtime st e) st.
Proof. intros b e'. apply wire_parses_back. Qed.

Lemma connected_posts (st : store) (e : env) (baseUrl : string) :
  @posts_to_server reference_jwt (connected_runtime st e) st e baseUrl.
Proof.
  intros username password params Hjson.
  cbn [http_post JSON_stringify connected_runtime].
  rewrite Hjson, wire_parses_back. reflexivity.
Qed.

Lemma length_string_repeat_x (n : nat) : String.length (string_repeat "x" n) = n.
Proof.
  induction n as [| n IH]; [reflexivity |].
  change (S (String.length (string_repeat "x" n)) = S n). f_equal. exact IH.
Qed.

Lemma counting_runtime_grows (items : list json) :
  (List.length items <=
   String.length (@JSON_stringify counting_runtime (JArr items)))%nat.
Proof. cbn [JSON_stringify counting_runtime]. rewrite length_string_repeat_x. lia. Qed.

Lemma half_in_range (i : nat) : (0 <= half i)%Q /\ (half i < 1)%Q.
Proof. split; [discriminate | reflexivity]. Qed.

Lemma random_delay_range_witness :
  exists delay : Z,
    100 <= delay <= 1999 /\
    timer (@serve reference_jwt initial_store GetRandomDelay noon) = Some delay.
Proof.
  destruct (@random_delay_range reference_jwt initial_store noon)
    as (delay & Hd & Ht & _); [discriminate | reflexivity |].
  exists delay. split; assumption.
Defined.

Lemma post_users_id_range_witness :
  exists (id : Z) data,
    0 <= id <= 9999 /\
    prop (body (@serve reference_jwt initial_store (PostUsers hanako) noon)) "data"
      = Some data /\
    prop data "id" = Some (jint id).
Proof.
  apply (@post_users_id_range reference_jwt initial_store hanako noon);
    [discriminate | reflexivity | reflexivity | reflexivity].
Defined.

Lemma upload_reports_drawn_size_witness :
  status (@serve reference_jwt initial_store PostUpload noon) = 200.
Proof.
  apply (@upload_reports_drawn_size reference_jwt initial_store noon);
    [discriminate | reflexivity].
Defined.

Lemma status_message_unknown_witness :
  prop (body (@serve reference_jwt initial_store (GetStatus (show_Z 418)) noon))
    "message" = Some (JStr "Unknown Status").
Proof.
  destruct (@status_message_unknown reference_jwt initial_store 418 noon ltac:(lia))
    as [_ [_ H]].
  apply H. cbn. intros H'. repeat (destruct H' as [H' | H']; [discriminate |]). exact H'.
Defined.

Lemma large_payload_default_size_witness :
  prop (body (@serve reference_jwt initial_store (GetLargePayload None) noon)) "count"
  = Some (jint 100).
Proof.
  apply (@large_payload_default_size reference_jwt initial_store None noon).
  left. reflexivity.
Defined.

Lemma large_payload_negative_size_witness :
  status (@serve reference_jwt initial_store (GetLargePayload (Some (show_Z (-1)))) noon)
  = 200.
Proof.
  rewrite (@large_payload_negative_size reference_jwt initial_store (-1) noon ltac:(lia)).
  reflexivity.
Defined.

Lemma alice_token_verifies :
  status (@serve reference_jwt initial_store
            (GetMe (Some ("Bearer " +:+ alice_token))) noon) = 200.
Proof.
  unfold alice_token.
  rewrite (@me_after_login reference_jwt initial_store reference_verify_fresh
             (JStr "alice") noon noon ltac:(lia)).
  reflexivity.
Qed.

Lemma me_ok_only_if_verified_witness :
  exists token decoded,
    Some ("Bearer " +:+ alice_token) = Some ("Bearer " +:+ token) /\
    @jwt_verify reference_jwt token (JWT_SECRET initial_store) (clock noon) = Some decoded.
Proof.
  apply (@me_ok_only_if_verified reference_jwt initial_store
           (Some ("Bearer " +:+ alice_token)) noon).
  exact alice_token_verifies.
Defined.

Lemma error_text_iff_failure_witness :
  exists msg,
    prop (body (@serve reference_jwt initial_store Unmatched noon)) "error"
    = Some (JStr msg).
Proof.
  destruct (@error_text_iff_failure reference_jwt initial_store Unmatched noon)
    as [[_ H] _]; [discriminate | discriminate |].
  apply H. cbn. lia.
Defined.

Lemma get_user_reads_id_back_witness :
  status (@serve reference_jwt initial_store (GetUser (show_Z 42)) noon) = 200.
Proof.
  destruct (@get_user_reads_id_back reference_jwt initial_store noon) as [H _].
  rewrite (H 42); [reflexivity |]. vm_compute. discriminate.
Defined.

Lemma auth_header_carries_token_witness :
  status (@serve reference_jwt initial_store
            (GetMe (authorization_of (getAuthHeaders "abc"))) noon) = 401.
Proof.
  destruct (@auth_header_carries_token reference_jwt initial_store "abc" noon)
    as [H _].
  rewrite H; [reflexivity |]. split; [discriminate | reflexivity].
Defined.

Lemma config_numbers_default_witness :
  vus (config (K6Env None None (Some (show_Z 50)) None None)) = 50.
Proof.
  destruct (config_numbers_default (K6Env None None (Some (show_Z 50)) None None))
    as (_ & _ & H & _).
  apply (H 50); [discriminate | vm_compute; discriminate | reflexivity].
Defined.

Lemma login_against_server_witness :
  @login (connected_runtime initial_store noon) "http://localhost:3000" "alice" "wrong"
  = JNull.
Proof.
  destruct (@login_against_server reference_jwt initial_store
              (connected_runtime initial_store noon) noon "http://localhost:3000"
              reference_sign_nonempty (connected_reads_login_answers initial_store noon)
              (connected_posts initial_store noon "http://localhost:3000")
              "alice" "wrong") as [H _].
  apply H. right. right. reflexivity.
Defined.

Lemma login_then_me_witness :
  exists token,
    @login (connected_runtime initial_store noon) "http://localhost:3000" "alice" "secret"
    = JStr token /\
    status (@serve reference_jwt initial_store
              (GetMe (authorization_of (getAuthHeaders token))) noon) = 200.
Proof.
  destruct (@login_then_me reference_jwt initial_store
              (connected_runtime initial_store noon) noon "http://localhost:3000"
              reference_sign_nonempty (connected_reads_login_answers initial_store noon)
              (connected_posts initial_store noon "http://localhost:3000")
              reference_verify_fresh reference_sign_header_safe
              "alice" "secret" noon)
    as (token & Hl & Hs & _).
  - discriminate.
  - discriminate.
  - discriminate.
  - cbn. lia.
  - exists token. split; assumption.
Defined.

Lemma user_info_check_fails_on_id_zero_witness :
  check_token_received (body (@serve reference_jwt initial_store (PostLogin alice) noon))
  = true.
Proof.
  apply (@user_info_check_fails_on_id_zero reference_jwt initial_store
           reference_sign_nonempty reference_verify_fresh "alice" "secret" noon noon).
  - discriminate.
  - discriminate.
  - discriminate.
  - cbn. lia.
Defined.

Lemma authenticated_requests_params_witness :
  exists sent : json,
    @authenticatedGet (fun _ _ => K6Response 200 None) "http://localhost:3000/api/users"
      "t" (Some [("tags", JObj [("name", JStr "users")])])
    = K6Response 200 None /\
    prop sent "headers" = Some (getAuthHeaders "t").
Proof.
  destruct (@authenticated_requests_params numeric_token_runtime
              (fun _ _ => K6Response 200 None) "http://localhost:3000/api/users" "t"
              JNull [("tags", JObj [("name", JStr "users")])])
    as (sent & Hg & _ & _ & Hh & _).
  - constructor; [intros [] | constructor].
  - exists sent. split; [rewrite Hg; reflexivity | apply Hh; reflexivity].
Defined.

Lemma buildOptions_custom_wins_witness :
  get_member "vus"
    (buildOptions (fun _ => false) (K6Env None None None None None)
       (Some [("vus", Json (jint 50))]))
  = Some (Json (jint 50)).
Proof.
  rewrite (buildOptions_custom_wins (fun _ => false) (K6Env None None None None None)
             [("vus", Json (jint 50))] "vus").
  - reflexivity.
  - constructor; [intros [] | constructor].
Defined.

Lemma randomInt_range_witness : 1 <= randomInt 1 6 (1 # 2) <= 6.
Proof.
  destruct (randomInt_range 1 6 ltac:(lia) ltac:(lia) ltac:(lia)) as [H _].
  apply H; [discriminate | reflexivity].
Defined.

Lemma randomChoice_member_witness :
  exists x, randomChoice [10; 20; 30] (1 # 2) = Some x /\ In x [10; 20; 30].
Proof.
  destruct (randomChoice_member [10; 20; 30] (1 # 2)) as [H _];
    [discriminate | reflexivity |].
  apply H. discriminate.
Defined.

Lemma generateRandomString_length_witness :
  String.length (generateRandomString half (Some 16)) = 16%nat.
Proof.
  destruct (generateRandomString_length half half_in_range 16) as [H _].
  exact H.
Defined.

Lemma generateFileContent_size_witness :
  Z.of_nat (String.length (generateFileContent half 1)) = 1024.
Proof.
  destruct (generateFileContent_size half half_in_range 1 ltac:(lia)) as [H _].
  exact H.
Defined.

Lemma generateDummyPayload_reaches_size_witness :
  exists items,
    @generateDummyPayload half counting_runtime (fun _ => "2023-11-14T22:13:20.000Z")
      (Some 1) = Some (JObj [("items", JArr items)]) /\
    items <> [].
Proof.
  destruct (@generateDummyPayload_reaches_size counting_runtime half
              (fun _ => "2023-11-14T22:13:20.000Z") counting_runtime_grows 1)
    as (items & Hrun & _ & H).
  exists items. split; [exact Hrun | apply H; lia].
Defined.
